(** * Stock sentiment analyzer: a shallow embedding of
      [stock_sentiment_analyzer.py] and the properties of its advisory rule,
      news fetcher, record builder, chart builder and performance metric.

    Numbers are IEEE 754 binary64 values, as Python's [float] and numpy's
    [float64] are; they are modelled with the Standard Library's executable
    specification of floating-point arithmetic ([SpecFloat]).  Python
    exceptions are values of [exn] carried by [result]; the side effects of
    the fetcher (messages, log lines, the HTTP request) are events appended
    to a trace. *)

From Stdlib Require Import ZArith List String Ascii Bool Lia Sorted DecimalString.
From Stdlib Require Import Permutation.
From Stdlib Require Import Floats.SpecFloat.
Import ListNotations.

Set Warnings "-register-all".

Open Scope string_scope.
Open Scope list_scope.
Open Scope Z_scope.

(* ===================================================================== *)
(** ** Python exceptions and fallible results *)

Inductive exn : Type :=
| ValueError
| KeyError
| TypeError
| AttributeError
| IndexError
| OverflowError
| RequestException   (* requests.get: connection error, timeout, ... *)
| HTTPError          (* response.raise_for_status() *)
| JSONDecodeError.   (* response.json() *)

Inductive result (A : Type) : Type :=
| Ok (a : A)
| Raise (e : exn).

Arguments Ok {A} a.
Arguments Raise {A} e.

Definition rbind {A B} (r : result A) (k : A -> result B) : result B :=
  match r with
  | Ok a => k a
  | Raise e => Raise e
  end.

Declare Scope result_scope.
Delimit Scope result_scope with result.
Notation "x <- r ;; k" := (rbind r (fun x => k))
  (at level 61, r at next level, right associativity) : result_scope.

(* ===================================================================== *)
(** ** binary64 arithmetic *)

Module Float64.

Definition prec : Z := 53.
Definition emax : Z := 1024.

Abbreviation float := spec_float (only parsing).

Definition add : float -> float -> float := SFadd prec emax.
Definition sub : float -> float -> float := SFsub prec emax.
Definition mul : float -> float -> float := SFmul prec emax.
Definition div : float -> float -> float := SFdiv prec emax.

(** [x < y], [x <= y] and [x > y]; every comparison with NaN is false. *)
Definition ltb : float -> float -> bool := SFltb.
Definition gtb (x y : float) : bool := SFltb y x.

Definition nan : float := S754_nan.
Definition zero : float := S754_zero false.

Definition is_nan (x : float) : bool :=
  match x with
  | S754_nan => true
  | _ => false
  end.

(** The float of an integer (exact for |z| < 2^53, rounded otherwise). *)
Definition of_Z (z : Z) : float := binary_normalize prec emax z 0 false.

(** The value of a decimal literal [n / d] of the source text: the binary64
    nearest to the quotient (both operands are exact wherever it is used,
    and IEEE division rounds correctly). *)
Definition decimal (n d : Z) : float := div (of_Z n) (of_Z d).

(** The literals of the source. *)
Definition c_0_05 : float := S754_finite false 7205759403792794 (-57).
Definition c_0_04 : float := S754_finite false 5764607523034235 (-57).
Definition c_1 : float := S754_finite false 4503599627370496 (-52).
Definition c_100 : float := S754_finite false 7036874417766400 (-46).

End Float64.

Import Float64.

(* ===================================================================== *)
(** ** Dates and data frames *)

(** A naive [datetime.datetime] as [strptime] builds it for the format of the
    source (no microseconds, no time zone). *)
Record datetime : Type := mkDatetime {
  year : Z; month : Z; day : Z;
  hour : Z; minute : Z; second : Z
}.

(** [datetime.date]: the calendar day of a [datetime]. *)
Record pydate : Type := mkDate { d_year : Z; d_month : Z; d_day : Z }.

Definition date_of (t : datetime) : pydate :=
  mkDate (year t) (month t) (day t).

(** A [pandas.DataFrame] whose rows have the record type [R]: the column
    labels and the rows in index order. *)
Record DataFrame (R : Type) : Type := mkDataFrame {
  columns : list string;
  rows : list R
}.

Arguments mkDataFrame {R} columns rows.
Arguments columns {R} d.
Arguments rows {R} d.

(** [df.empty]: true when either axis has length 0. *)
Definition empty {R} (df : DataFrame R) : bool :=
  match columns df, rows df with
  | [], _ => true
  | _, [] => true
  | _ :: _, _ :: _ => false
  end.

(** [len(df)]: the number of rows. *)
Definition len {R} (df : DataFrame R) : Z := Z.of_nat (List.length (rows df)).

(** [df[label]]: the column as a sequence, KeyError when the frame has no
    such label. *)
Definition getitem {R A} (df : DataFrame R) (label : string) (proj : R -> A)
  : result (list A) :=
  if in_dec string_dec label (columns df)
  then Ok (map proj (rows df))
  else Raise KeyError.

(** [series.iloc[i]]: position [i], counted from the end when negative. *)
Definition iloc {A} (s : list A) (i : Z) : result A :=
  let n := Z.of_nat (List.length s) in
  let j := if i <? 0 then n + i else i in
  if (j <? 0) || (n <=? j) then Raise IndexError
  else match nth_error s (Z.to_nat j) with
       | Some x => Ok x
       | None => Raise IndexError
       end.

(** [series.mean()]: missing values (NaN) are skipped, the rest is summed and
    divided by its count; NaN when nothing is left.  The source does not fix
    the order in which the library adds; the values are added from left to
    right here, and no statement below depends on that order except through
    the two-score example, whose sum is exact either way. *)
Definition Series_sum (s : list float) : float :=
  fold_left add (filter (fun x => negb (is_nan x)) s) zero.

Definition Series_count (s : list float) : Z :=
  Z.of_nat (List.length (filter (fun x => negb (is_nan x)) s)).

Definition Series_mean (s : list float) : float :=
  if Series_count s =? 0 then nan
  else div (Series_sum s) (of_Z (Series_count s)).

(** A row of the sentiment frame and a daily price bar. *)
Record SentimentRow : Type := mkSentimentRow {
  date : datetime;
  headline : string;
  sentiment : float
}.

Record PriceBar : Type := mkPriceBar {
  Date : datetime;
  Open : float; High : float; Low : float; Close : float
}.

Definition sentiment_columns : list string := ["date"; "headline"; "sentiment"].
Definition stock_columns : list string := ["Open"; "High"; "Low"; "Close"; "Date"].

(* ===================================================================== *)
(** ** StockSentimentAnalyzer.get_trading_advice *)

Module Advisory.

Open Scope result_scope.

Definition get_trading_advice
    (sentiment_df : DataFrame SentimentRow) (stock_df : DataFrame PriceBar)
  : result (string * string) :=
  if empty sentiment_df || empty stock_df || (len stock_df <? 2)
  then Ok ("NO ADVICE", "gray")
  else
    sentiments <- getitem sentiment_df "sentiment" sentiment ;;
    let avg_sentiment := Series_mean sentiments in
    closes <- getitem stock_df "Close" Close ;;
    close_last <- iloc closes (-1) ;;
    closes' <- getitem stock_df "Close" Close ;;
    close_first <- iloc closes' 0 ;;
    let price_change := mul (sub (div close_last close_first) c_1) c_100 in
    if gtb avg_sentiment c_0_05 then Ok ("BUYING ADVISED", "green")
    else if ltb avg_sentiment c_0_04 then Ok ("SELLING ADVISED", "red")
    else Ok ("HOLD POSITION", "orange").


End Advisory.

(* ===================================================================== *)
(** ** Values of a decoded JSON body *)

(** What [response.json()] can return: Python's [None], [bool], [int],
    [float], [str], [list] and [dict] (a dict is listed binding by binding;
    [dict_get] reads the first binding of a key). *)
Inductive pyval : Type :=
| PNone
| PBool (b : bool)
| PInt (z : Z)
| PFloat (f : float)
| PStr (s : string)
| PList (l : list pyval)
| PDict (d : list (string * pyval)).

Fixpoint dict_get (d : list (string * pyval)) (k : string) : option pyval :=
  match d with
  | [] => None
  | (k', v) :: rest => if string_dec k k' then Some v else dict_get rest k
  end.

(** [v[k]] with a string key: KeyError on a dict without the key, TypeError
    on everything that is not a dict (a str or a list takes integer indices,
    the other values are not subscriptable). *)
Definition subscript (v : pyval) (k : string) : result pyval :=
  match v with
  | PDict d =>
      match dict_get d k with
      | Some x => Ok x
      | None => Raise KeyError
      end
  | _ => Raise TypeError
  end.

(** [v.get(k, default)]: only a dict has the method. *)
Definition py_get (v : pyval) (k : string) (default : pyval) : result pyval :=
  match v with
  | PDict d =>
      match dict_get d k with
      | Some x => Ok x
      | None => Ok default
      end
  | _ => Raise AttributeError
  end.

Fixpoint chars (s : string) : list pyval :=
  match s with
  | EmptyString => []
  | String c rest => PStr (String c EmptyString) :: chars rest
  end.

(** The items a [for] loop draws from a value: the elements of a list, the
    keys of a dict, the characters of a str; TypeError on the rest. *)
Definition py_iter (v : pyval) : result (list pyval) :=
  match v with
  | PList l => Ok l
  | PDict d => Ok (map (fun kv => PStr (fst kv)) d)
  | PStr s => Ok (chars s)
  | _ => Raise TypeError
  end.

(** [v != 'ok']. *)
Definition py_ne_str (v : pyval) (s : string) : bool :=
  match v with
  | PStr s' => if string_dec s' s then false else true
  | _ => true
  end.

(* ===================================================================== *)
(** ** Effects of the fetcher *)

Record Company : Type := mkCompany {
  name : string;
  ticker : string;
  sector : string
}.

(** The GET request of the source: URL, query parameters and time-out. *)
Record request : Type := mkRequest {
  url : string;
  params : list (string * string);
  timeout : Z
}.

(** A received response: its status code and what [response.json()] gives
    (a decoded value, or JSONDecodeError). *)
Record response : Type := mkResponse {
  status_code : Z;
  json : result pyval
}.

Inductive event : Type :=
| st_error (msg : string)
| st_warning (prefix : string) (detail : pyval)
| logger_warning (prefix : string) (e : exn)
| logger_error (prefix : string) (e : exn)
| requests_get (r : request).

(** A computation that appends events to a trace and returns or raises. *)
Definition io (A : Type) : Type := list event -> result A * list event.

Definition io_ret {A} (a : A) : io A := fun tr => (Ok a, tr).

Definition io_raise {A} (e : exn) : io A := fun tr => (Raise e, tr).

Definition io_bind {A B} (m : io A) (k : A -> io B) : io B :=
  fun tr =>
    match m tr with
    | (Ok a, tr') => k a tr'
    | (Raise e, tr') => (Raise e, tr')
    end.

Definition io_lift {A} (r : result A) : io A := fun tr => (r, tr).

Definition emit (ev : event) : io unit := fun tr => (Ok tt, tr ++ [ev]).

(** [try: body except Exception as e: handler e]; every exception of [exn]
    is an [Exception]. *)
Definition try_except {A} (body : io A) (handler : exn -> io A) : io A :=
  fun tr =>
    match body tr with
    | (Ok a, tr') => (Ok a, tr')
    | (Raise e, tr') => handler e tr'
    end.

Declare Scope io_scope.
Delimit Scope io_scope with io.
Notation "x <- m ;; k" := (io_bind m (fun x => k))
  (at level 61, m at next level, right associativity) : io_scope.
Notation "m ;; k" := (io_bind m (fun _ => k))
  (at level 61, right associativity) : io_scope.

(** [response.raise_for_status()]: HTTPError for the client and server error
    codes, [400 <= status_code < 600], nothing otherwise. *)
Definition raise_for_status (r : response) : result unit :=
  if (400 <=? status_code r) && (status_code r <? 600)
  then Raise HTTPError
  else Ok tt.

(** [not api_key]: the key is [None] or the empty string. *)
Definition falsy (api_key : option string) : bool :=
  match api_key with
  | None => true
  | Some EmptyString => true
  | Some (String _ _) => false
  end.

(** How the request can fail upstream: [requests.get] raises, the status
    code is a client or server error, the body is not JSON, or the decoded
    body has no status 'ok'. *)
Definition upstream_failure (outcome : result response) : Prop :=
  (exists e, outcome = Raise e) \/
  (exists resp, outcome = Ok resp /\ 400 <= status_code resp < 600) \/
  (exists resp e, outcome = Ok resp /\ json resp = Raise e) \/
  (exists resp data, outcome = Ok resp /\ json resp = Ok data /\
     match py_get data "status" PNone with
     | Ok status => py_ne_str status "ok" = true
     | Raise _ => True
     end).

(** A headline tuple: (date, title, sentiment). *)
Definition Headline : Type := datetime * string * float.

(* ===================================================================== *)
(** ** StockSentimentAnalyzer.fetch_news_headlines *)

Section NewsFetcher.

(** [datetime.strptime(s, '%Y-%m-%dT%H:%M:%SZ')]; [None] is ValueError. *)
Variable strptime : string -> option datetime.
(** [TextBlob(text).sentiment.polarity]. *)
Variable polarity : string -> float.
(** [t - timedelta(days=n)]; [None] is OverflowError. *)
Variable minus_days : datetime -> Z -> option datetime.
(** [t.strftime("%Y-%m-%d")]. *)
Variable strftime_ymd : datetime -> string.
(** The news service: the outcome of [requests.get] for a request. *)
Variable http : request -> result response.

(** [datetime.strptime(v, fmt)]: the argument must be a str. *)
Definition py_strptime (v : pyval) : result datetime :=
  match v with
  | PStr s =>
      match strptime s with
      | Some t => Ok t
      | None => Raise ValueError
      end
  | _ => Raise TypeError
  end.

(** [TextBlob(v)]: the text must be a str. *)
Definition TextBlob (v : pyval) : result string :=
  match v with
  | PStr s => Ok s
  | _ => Raise TypeError
  end.

(** The body of the inner [try] for one article. *)
Definition process_article (article : pyval) : result Headline :=
  (published <- subscript article "publishedAt" ;;
   date <- py_strptime published ;;
   title <- subscript article "title" ;;
   blob <- TextBlob title ;;
   let sentiment := polarity blob in
   title' <- subscript article "title" ;;
   text <- TextBlob title' ;;   (* the same str that [TextBlob] accepted *)
   Ok (date, text, sentiment))%result.

(** The [for] loop: ValueError and KeyError are logged and the article is
    skipped, any other exception leaves the loop. *)
Fixpoint article_loop (articles : list pyval) (headlines : list Headline)
  : io (list Headline) :=
  match articles with
  | [] => io_ret headlines
  | article :: rest =>
      match process_article article with
      | Ok h => article_loop rest (headlines ++ [h])
      | Raise ValueError =>
          (emit (logger_warning "Error processing article: " ValueError) ;;
           article_loop rest headlines)%io
      | Raise KeyError =>
          (emit (logger_warning "Error processing article: " KeyError) ;;
           article_loop rest headlines)%io
      | Raise e => io_raise e
      end
  end.

Definition news_url : string := "https://newsapi.org/v2/everything".

Definition news_params (company : Company) (start_date end_date : datetime)
    (key : string) : list (string * string) :=
  [ ("q", String.append (name company) (String.append " OR " (ticker company)));
    ("from", strftime_ymd start_date);
    ("to", strftime_ymd end_date);
    ("language", "en");
    ("sortBy", "publishedAt");
    ("apiKey", key) ].

(** The request sent: [requests.get(url, params=params, timeout=10)]. *)
Definition news_request (company : Company) (start_date end_date : datetime)
    (key : string) : request :=
  mkRequest news_url (news_params company start_date end_date key) 10.

(** [now] is the reading of [datetime.now()]. *)
Definition fetch_news_headlines (api_key : option string) (company : Company)
    (days : Z) (now : datetime) : io (list Headline) :=
  (if falsy api_key then
     emit (st_error "Please set your News API key in the sidebar") ;;
     io_ret []
   else
     let headlines := [] in
     let end_date := now in
     start_date <- io_lift (match minus_days end_date days with
                            | Some t => Ok t
                            | None => Raise OverflowError
                            end) ;;
     try_except
       (let req := news_request company start_date end_date
                     (match api_key with Some k => k | None => "" end) in
        emit (requests_get req) ;;
        response <- io_lift (http req) ;;
        io_lift (raise_for_status response) ;;
        data <- io_lift (json response) ;;
        status <- io_lift (py_get data "status" PNone) ;;
        if py_ne_str status "ok" then
          message <- io_lift (py_get data "message" (PStr "Unknown error")) ;;
          emit (st_warning "Error fetching news: " message) ;;
          io_ret []
        else
          articles <- io_lift (py_get data "articles" (PList [])) ;;
          items <- io_lift (py_iter articles) ;;
          article_loop items headlines)
       (fun e =>
          emit (logger_error "Error fetching news: " e) ;;
          io_ret []))%io.

(** *** The articles of a response, as the properties below speak of them *)

(** The publish timestamp and the title of an article, when the article is
    an object that carries them as strings. *)
Definition published_at (article : pyval) : option string :=
  match article with
  | PDict d =>
      match dict_get d "publishedAt" with
      | Some (PStr s) => Some s
      | _ => None
      end
  | _ => None
  end.

Definition title_of (article : pyval) : option string :=
  match article with
  | PDict d =>
      match dict_get d "title" with
      | Some (PStr s) => Some s
      | _ => None
      end
  | _ => None
  end.



(** The headline tuple of a well-formed article. *)
Definition headline_of (article : pyval) : option Headline :=
  match published_at article, title_of article with
  | Some ts, Some t =>
      match strptime ts with
      | Some date => Some (date, t, polarity t)
      | None => None
      end
  | _, _ => None
  end.

(** The headline tuples of the well-formed articles of a list, in order. *)
Definition headlines_of (articles : list pyval) : list Headline :=
  flat_map (fun a => match headline_of a with
                     | Some h => [h]
                     | None => []
                     end) articles.

(** A response that [raise_for_status] lets through and whose body is an
    object with status 'ok' and the given list of articles. *)
Definition successful_response (r : response) (articles : list pyval) : Prop :=
  raise_for_status r = Ok tt /\
  exists data,
    json r = Ok data /\
    py_get data "status" PNone = Ok (PStr "ok") /\
    py_get data "articles" (PList []) = Ok (PList articles).

End NewsFetcher.

(* ===================================================================== *)
(** ** StockSentimentAnalyzer.analyze_sentiment *)

(** [pd.DataFrame(results)] of a non-empty list of dicts takes its columns
    from the keys of the dicts, here date, headline and sentiment. *)
Definition analyze_sentiment (headlines : list Headline)
  : DataFrame SentimentRow :=
  match headlines with
  | [] => mkDataFrame ["date"; "headline"; "sentiment"] []
  | _ :: _ =>
      let results :=
        fold_left
          (fun results (h : Headline) =>
             let '(date, headline, sentiment) := h in
             results ++ [mkSentimentRow date headline sentiment])
          headlines [] in
      mkDataFrame ["date"; "headline"; "sentiment"] results
  end.

(** The row that a headline tuple becomes. *)
Definition row_of (h : Headline) : SentimentRow :=
  let '(date, headline, sentiment) := h in
  mkSentimentRow date headline sentiment.

(* ===================================================================== *)
(** ** create_visualization *)

Definition date_compare (a b : pydate) : comparison :=
  match d_year a ?= d_year b with
  | Eq =>
      match d_month a ?= d_month b with
      | Eq => d_day a ?= d_day b
      | c => c
      end
  | c => c
  end.

Definition date_ltb (a b : pydate) : bool :=
  match date_compare a b with
  | Lt => true
  | _ => false
  end.

Definition date_eqb (a b : pydate) : bool :=
  match date_compare a b with
  | Eq => true
  | _ => false
  end.

(** One more value for key [k] in the groups, which are kept in ascending
    key order; the values of a group stay in arrival order. *)
Fixpoint group_insert (k : pydate) (v : float)
    (groups : list (pydate * list float)) : list (pydate * list float) :=
  match groups with
  | [] => [(k, [v])]
  | (k', vs) :: rest =>
      match date_compare k k' with
      | Lt => (k, [v]) :: groups
      | Eq => (k', vs ++ [v]) :: rest
      | Gt => (k', vs) :: group_insert k v rest
      end
  end.

(** [values.groupby(keys)]: the groups in ascending key order. *)
Definition groupby (keys : list pydate) (values : list float)
  : list (pydate * list float) :=
  fold_left (fun groups kv => group_insert (fst kv) (snd kv) groups)
            (combine keys values) [].

(** [values.groupby(keys).mean().reset_index()]: one (key, mean) row per
    group. *)
Definition groupby_mean (keys : list pydate) (values : list float)
  : list (pydate * float) :=
  map (fun g => (fst g, Series_mean (snd g))) (groupby keys values).

(** [sentiment_data.groupby(sentiment_data['date'].dt.date)['sentiment']
    .mean().reset_index()]: the rows (date, mean sentiment of the day). *)
Definition daily_sentiment_of (sentiment_data : DataFrame SentimentRow)
  : result (list (pydate * float)) :=
  (dates <- getitem sentiment_data "date" date ;;
   sentiments <- getitem sentiment_data "sentiment" sentiment ;;
   Ok (groupby_mean (map date_of dates) sentiments))%result.

(** The sentiment scores of the records of one calendar day, in record
    order. *)
Definition scores_of_day (d : pydate) (records : list SentimentRow)
  : list float :=
  map sentiment (filter (fun r => date_eqb (date_of (date r)) d) records).

Definition date_lt (a b : pydate) : Prop := date_compare a b = Lt.

(** The values filed under key [k] in a list of groups, and the values paired
    with key [k] in a list of (key, value) pairs. *)
Definition values_of_key (k : pydate) (groups : list (pydate * list float))
  : list float :=
  flat_map (fun g => if date_eqb (fst g) k then snd g else []) groups.

(** The groups are in ascending key order, every key once. *)
Definition keys_sorted (groups : list (pydate * list float)) : Prop :=
  StronglySorted date_lt (map fst groups).

Definition pairs_of_key (k : pydate) (kvs : list (pydate * float))
  : list float :=
  map snd (filter (fun kv => date_eqb (fst kv) k) kvs).

Inductive trace : Type :=
| Candlestick (x : list datetime) (open high low close : list float)
              (trace_name : string)
| Scatter (x : list pydate) (y : list float) (mode : string)
          (trace_name : string) (marker_size : Z).

(** A figure: the subplot grid, the traces with the (row, column) of their
    subplot, and the layout settings of the source. *)
Record Figure : Type := mkFigure {
  subplot_titles : string * string;
  data : list (trace * (Z * Z));
  height : option Z;
  title_text : option string;
  showlegend : option bool;
  xaxis_rangeslider_visible : option bool
}.

Definition make_subplots (titles : string * string) : Figure :=
  mkFigure titles [] None None None None.

Definition add_trace (fig : Figure) (t : trace) (row col : Z) : Figure :=
  mkFigure (subplot_titles fig) (data fig ++ [(t, (row, col))])
           (height fig) (title_text fig) (showlegend fig)
           (xaxis_rangeslider_visible fig).

Definition update_layout (fig : Figure) (h : Z) (title : string)
    (legend slider : bool) : Figure :=
  mkFigure (subplot_titles fig) (data fig)
           (Some h) (Some title) (Some legend) (Some slider).

Definition is_candlestick (t : trace) : bool :=
  match t with
  | Candlestick _ _ _ _ _ _ => true
  | Scatter _ _ _ _ _ => false
  end.

Definition is_scatter (t : trace) : bool := negb (is_candlestick t).

(** The frame's index is its [Date] values ([get_stock_data] copies the
    index into that column). *)
Definition index (stock_data : DataFrame PriceBar) : list datetime :=
  map Date (rows stock_data).

Definition create_visualization (stock_data : DataFrame PriceBar)
    (sentiment_data : DataFrame SentimentRow) (company_name : string)
  : result (option Figure) :=
  (if empty stock_data then Ok None
   else
     let fig :=
       make_subplots (String.append company_name " Stock Price",
                      "Sentiment Analysis") in
     opens <- getitem stock_data "Open" Open ;;
     highs <- getitem stock_data "High" High ;;
     lows <- getitem stock_data "Low" Low ;;
     closes <- getitem stock_data "Close" Close ;;
     let fig :=
       add_trace fig
         (Candlestick (index stock_data) opens highs lows closes "Stock Price")
         1 1 in
     fig <- (if negb (empty sentiment_data) then
               daily_sentiment <- daily_sentiment_of sentiment_data ;;
               Ok (add_trace fig
                     (Scatter (map fst daily_sentiment)
                              (map snd daily_sentiment)
                              "lines+markers" "Daily Sentiment" 8)
                     2 1)
             else Ok fig) ;;
     Ok (Some (update_layout fig 800
                 (String.append company_name " Market Analysis Dashboard")
                 true false)))%result.

(* ===================================================================== *)
(** ** The metrics of [main] *)

(** [num / den] rounded to the nearest integer, ties to even ([den > 0]). *)
Definition round_half_even (num den : Z) : Z :=
  let q := num / den in
  let r := num mod den in
  match 2 * r ?= den with
  | Lt => q
  | Gt => q + 1
  | Eq => if Z.even q then q else q + 1
  end.

Definition string_of_Z (z : Z) : string :=
  NilZero.string_of_uint (N.to_uint (Z.to_N z)).

(** The [k] low decimal digits of [n], most significant first. *)
Fixpoint low_digits (k : nat) (n : Z) : string :=
  match k with
  | O => ""
  | S k' =>
      String.append (low_digits k' (n / 10))
        (String (ascii_of_nat (48 + Z.to_nat (n mod 10))) "")
  end.

(** [format(x, '.<digits>f')]: the exact value of [x] correctly rounded to
    [digits] decimals (ties to even), with the sign of [x]. *)
Definition format_f (digits : nat) (x : float) : string :=
  let scale := 10 ^ Z.of_nat digits in
  let sign (s : bool) := if s then "-" else "" in
  let fixed (s : bool) (n : Z) :=
    String.append (sign s)
      (String.append (string_of_Z (n / scale))
         (match digits with
          | O => ""
          | S _ => String.append "." (low_digits digits (n mod scale))
          end)) in
  match x with
  | S754_nan => "nan"
  | S754_infinity s => String.append (sign s) "inf"
  | S754_zero s => fixed s 0
  | S754_finite s m e =>
      fixed s (if 0 <=? e then Zpos m * 2 ^ e * scale
               else round_half_even (Zpos m * scale) (2 ^ (- e)))
  end.

(** The third metric: [Some text] when [st.metric] is called, [None] when
    the column stays without a metric. *)
Definition stock_performance_metric (stock_df : DataFrame PriceBar)
  : result (option string) :=
  (if negb (empty stock_df) && (1 <? len stock_df) then
     closes <- getitem stock_df "Close" Close ;;
     close_last <- iloc closes (-1) ;;
     closes' <- getitem stock_df "Close" Close ;;
     close_first <- iloc closes' 0 ;;
     let perf := mul (sub (div close_last close_first) c_1) c_100 in
     Ok (Some (String.append (format_f 1 perf) "%"))
   else Ok None)%result.

(** The first metric. *)
Definition average_sentiment_metric (sentiment_df : DataFrame SentimentRow)
  : result string :=
  (if negb (empty sentiment_df) then
     sentiments <- getitem sentiment_df "sentiment" sentiment ;;
     Ok (format_f 2 (Series_mean sentiments))
   else Ok "N/A")%result.

(** The rule applied to a mean sentiment. *)
Definition advice_of_mean (s : float) : string * string :=
  if gtb s c_0_05 then ("BUYING ADVISED", "green")
  else if ltb s c_0_04 then ("SELLING ADVISED", "red")
  else ("HOLD POSITION", "orange").

(* ===================================================================== *)
(** ** Instances of the library functions, and sample data

    The fetcher is parametrised by the library functions it calls.  This
    module gives executable instances of them on which the statements below
    are run: a parser of the canonical 20-character timestamp form, a
    table-driven polarity, and the proleptic Gregorian calendar. *)

Module Sample.

Definition digit (c : ascii) : option Z :=
  let n := Z.of_nat (nat_of_ascii c) in
  if (48 <=? n) && (n <=? 57) then Some (n - 48) else None.

(** Reads exactly [k] decimal digits. *)
Fixpoint read_digits (k : nat) (s : string) (acc : Z) : option (Z * string) :=
  match k with
  | O => Some (acc, s)
  | S k' =>
      match s with
      | String c rest =>
          match digit c with
          | Some d => read_digits k' rest (10 * acc + d)
          | None => None
          end
      | EmptyString => None
      end
  end.

Definition read_char (c : ascii) (s : string) : option string :=
  match s with
  | String c' rest => if Ascii.eqb c c' then Some rest else None
  | EmptyString => None
  end.

Definition is_leap (y : Z) : bool :=
  ((y mod 4 =? 0) && negb (y mod 100 =? 0)) || (y mod 400 =? 0).

Definition days_in_month (y m : Z) : Z :=
  if m =? 2 then (if is_leap y then 29 else 28)
  else if (m =? 4) || (m =? 6) || (m =? 9) || (m =? 11) then 30
  else 31.

Definition valid_datetime (t : datetime) : bool :=
  (1 <=? year t) && (year t <=? 9999) &&
  (1 <=? month t) && (month t <=? 12) &&
  (1 <=? day t) && (day t <=? days_in_month (year t) (month t)) &&
  (0 <=? hour t) && (hour t <=? 23) &&
  (0 <=? minute t) && (minute t <=? 59) &&
  (0 <=? second t) && (second t <=? 59).

Definition obind {A B} (o : option A) (k : A -> option B) : option B :=
  match o with
  | Some a => k a
  | None => None
  end.

(** Accepts exactly the strings [YYYY-MM-DDTHH:MM:SSZ] that name a valid
    date and time. *)
Definition strptime (s : string) : option datetime :=
  obind (read_digits 4 s 0) (fun '(y, s) =>
  obind (read_char "-" s) (fun s =>
  obind (read_digits 2 s 0) (fun '(mo, s) =>
  obind (read_char "-" s) (fun s =>
  obind (read_digits 2 s 0) (fun '(d, s) =>
  obind (read_char "T" s) (fun s =>
  obind (read_digits 2 s 0) (fun '(h, s) =>
  obind (read_char ":" s) (fun s =>
  obind (read_digits 2 s 0) (fun '(mi, s) =>
  obind (read_char ":" s) (fun s =>
  obind (read_digits 2 s 0) (fun '(se, s) =>
  obind (read_char "Z" s) (fun s =>
    match s with
    | EmptyString =>
        let t := mkDatetime y mo d h mi se in
        if valid_datetime t then Some t else None
    | String _ _ => None
    end)))))))))))).

(** A polarity by table: two known titles, 0.0 for the rest. *)
Definition polarity (text : string) : float :=
  if string_dec text "Shares soar on record profit" then decimal 8 10
  else if string_dec text "Lawsuit threatens outlook" then SFopp (decimal 4 10)
  else zero.

(** Days since 1970-01-01 of a civil date, and back. *)
Definition days_from_civil (y m d : Z) : Z :=
  let y' := if m <=? 2 then y - 1 else y in
  let era := y' / 400 in
  let yoe := y' - era * 400 in
  let doy := (153 * (if 2 <? m then m - 3 else m + 9) + 2) / 5 + d - 1 in
  let doe := yoe * 365 + yoe / 4 - yoe / 100 + doy in
  era * 146097 + doe - 719468.

Definition civil_from_days (z : Z) : Z * Z * Z :=
  let z' := z + 719468 in
  let era := z' / 146097 in
  let doe := z' - era * 146097 in
  let yoe := (doe - doe / 1460 + doe / 36524 - doe / 146096) / 365 in
  let doy := doe - (365 * yoe + yoe / 4 - yoe / 100) in
  let mp := (5 * doy + 2) / 153 in
  let d := doy - (153 * mp + 2) / 5 + 1 in
  let m := if mp <? 10 then mp + 3 else mp - 9 in
  let y := yoe + era * 400 in
  ((if m <=? 2 then y + 1 else y), m, d).

(** [t - timedelta(days=n)]: OverflowError when the day count or the
    resulting year is out of range. *)
Definition minus_days (t : datetime) (n : Z) : option datetime :=
  if (n <? -999999999) || (999999999 <? n) then None
  else
    let '(y, m, d) :=
      civil_from_days (days_from_civil (year t) (month t) (day t) - n) in
    if (y <? 1) || (9999 <? y) then None
    else Some (mkDatetime y m d (hour t) (minute t) (second t)).

Definition strftime_ymd (t : datetime) : string :=
  String.append (low_digits 4 (year t))
    (String.append "-"
       (String.append (low_digits 2 (month t))
          (String.append "-" (low_digits 2 (day t))))).

(** Sample frames. *)
Definition noon : datetime := mkDatetime 2024 3 5 12 0 0.

Definition sentiment_frame (scores : list float) : DataFrame SentimentRow :=
  mkDataFrame sentiment_columns
    (map (fun s => mkSentimentRow noon "headline" s) scores).

Definition bar (c : Z) : PriceBar :=
  mkPriceBar noon (of_Z c) (of_Z c) (of_Z c) (of_Z c).

Definition stock_frame (closes : list Z) : DataFrame PriceBar :=
  mkDataFrame stock_columns (map bar closes).

(** Sample articles and bodies. *)
Definition article (published title : pyval) : pyval :=
  PDict [("publishedAt", published); ("title", title)].

Definition good_article : pyval :=
  article (PStr "2024-03-05T09:30:00Z") (PStr "Shares soar on record profit").

Definition other_article : pyval :=
  article (PStr "2024-03-04T18:00:00Z") (PStr "Lawsuit threatens outlook").

Definition bad_date_article : pyval :=
  article (PStr "05/03/2024 09:30") (PStr "Quarterly report due").

Definition body (status : string) (articles : list pyval) : pyval :=
  PDict [("status", PStr status); ("articles", PList articles)].

Definition ok_response (articles : list pyval) : response :=
  mkResponse 200 (Ok (body "ok" articles)).

(** A 300 Multiple Choices answer that carries a regular body. *)
Definition multiple_choices_response : response :=
  mkResponse 300 (Ok (body "ok" [good_article])).

Definition not_found_response : response :=
  mkResponse 404 (Ok (body "error" [])).

(** The three records of the aggregation example, on two given days. *)
Definition three_records (t1 t1' t2 : datetime) : list SentimentRow :=
  [ mkSentimentRow t1 "first" (decimal 2 10);
    mkSentimentRow t1' "second" (SFopp (decimal 4 10));
    mkSentimentRow t2 "third" (decimal 6 10) ].

Definition apple : Company := mkCompany "Apple Inc" "AAPL" "Technology".

(** A server that answers every request with the same outcome. *)
Definition server (outcome : result response) : request -> result response :=
  fun _ => outcome.

Definition fetch (api_key : option string) (outcome : result response)
  : result (list Headline) * list event :=
  fetch_news_headlines strptime polarity minus_days strftime_ymd
    (server outcome) api_key apple 2 noon [].

End Sample.

(* ===================================================================== *)
(** ** How the article loop treats an article *)

(** The three outcomes of the inner [try] for one article: the tuple is
    appended, the article is skipped (the handled ValueError or KeyError), or
    an exception the inner handler does not catch leaves the loop. *)
Inductive treatment : Type :=
| Kept
| Skipped (e : exn)
| Fatal (e : exn).

Section ArticleTreatment.

Variable strptime : string -> option datetime.

(** The treatment read off the shape of the article alone. *)
Definition treatment_of (article : pyval) : treatment :=
  match article with
  | PDict d =>
      match dict_get d "publishedAt" with
      | None => Skipped KeyError
      | Some (PStr ts) =>
          match strptime ts with
          | None => Skipped ValueError
          | Some _ =>
              match dict_get d "title" with
              | None => Skipped KeyError
              | Some (PStr _) => Kept
              | Some _ => Fatal TypeError
              end
          end
      | Some _ => Fatal TypeError
      end
  | _ => Fatal TypeError
  end.

Definition is_fatal (article : pyval) : bool :=
  match treatment_of article with
  | Fatal _ => true
  | _ => false
  end.

Definition is_skipped (article : pyval) : bool :=
  match treatment_of article with
  | Skipped _ => true
  | _ => false
  end.

(** The warnings logged for a batch, up to its first fatal article. *)
Fixpoint loop_warnings (articles : list pyval) : list event :=
  match articles with
  | [] => []
  | a :: rest =>
      match treatment_of a with
      | Kept => loop_warnings rest
      | Skipped e =>
          logger_warning "Error processing article: " e :: loop_warnings rest
      | Fatal _ => []
      end
  end.

End ArticleTreatment.

Definition is_request (ev : event) : bool :=
  match ev with
  | requests_get _ => true
  | _ => false
  end.

(* ===================================================================== *)
(** ** StockSentimentAnalyzer.__init__: the company registry *)

(** A [dict] with string keys, binding by binding in insertion order. *)
Fixpoint lookup {V : Type} (d : list (string * V)) (k : string) : option V :=
  match d with
  | [] => None
  | (k', v) :: rest => if String.eqb k k' then Some v else lookup rest k
  end.

(** [d[k]]: KeyError when the key is absent. *)
Definition dict_getitem {V : Type} (d : list (string * V)) (k : string)
  : result V :=
  match lookup d k with
  | Some v => Ok v
  | None => Raise KeyError
  end.

Definition companies : list (string * Company) :=
  [ ("AAPL", mkCompany "Apple Inc" "AAPL" "Technology");
    ("MSFT", mkCompany "Microsoft Corp" "MSFT" "Technology");
    ("GOOGL", mkCompany "Alphabet Inc" "GOOGL" "Technology");
    ("TSLA", mkCompany "Tesla Inc" "TSLA" "Automotive");
    ("AMZN", mkCompany "Amazon.com Inc" "AMZN" "E-commerce");
    ("META", mkCompany "Meta Platforms Inc" "META" "Technology");
    ("NVDA", mkCompany "NVIDIA Corporation" "NVDA" "Technology");
    ("JPM", mkCompany "JPMorgan Chase & Co" "JPM" "Financial Services");
    ("BAC", mkCompany "Bank of America Corp" "BAC" "Financial Services");
    ("WMT", mkCompany "Walmart Inc" "WMT" "Retail");
    ("PG", mkCompany "Procter & Gamble Co" "PG" "Consumer Goods");
    ("JNJ", mkCompany "Johnson & Johnson" "JNJ" "Healthcare");
    ("UNH", mkCompany "UnitedHealth Group Inc" "UNH" "Healthcare");
    ("XOM", mkCompany "Exxon Mobil Corp" "XOM" "Energy");
    ("CVX", mkCompany "Chevron Corporation" "CVX" "Energy");
    ("KO", mkCompany "Coca-Cola Co" "KO" "Beverages");
    ("PEP", mkCompany "PepsiCo Inc" "PEP" "Beverages");
    ("DIS", mkCompany "Walt Disney Co" "DIS" "Entertainment");
    ("NFLX", mkCompany "Netflix Inc" "NFLX" "Entertainment");
    ("ADBE", mkCompany "Adobe Inc" "ADBE" "Technology") ].

(* ===================================================================== *)
(** ** main: the sector and company selectors *)

(** One more string in a list kept in ascending order without repeats. *)
Fixpoint insert_unique (s : string) (l : list string) : list string :=
  match l with
  | [] => [s]
  | x :: rest =>
      match String.compare s x with
      | Lt => s :: l
      | Eq => l
      | Gt => x :: insert_unique s rest
      end
  end.

(** [sorted(set(l))]: the distinct strings of [l] in ascending order
    (byte by byte, which is the code-point order of UTF-8 text). *)
Definition sorted_set (l : list string) : list string :=
  fold_right insert_unique [] l.

(** [sorted(set(company.sector for company in companies.values()))]. *)
Definition sectors (registry : list (string * Company)) : list string :=
  sorted_set (map (fun kv => sector (snd kv)) registry).

(** The options of the sector selector: [["All"] + sectors]. *)
Definition sector_options (registry : list (string * Company)) : list string :=
  "All" :: sectors registry.

(** The dict comprehension [filtered_companies]. *)
Definition filtered_companies (registry : list (string * Company))
    (selected_sector : string) : list (string * Company) :=
  filter (fun kv => String.eqb selected_sector "All"
                    || String.eqb (sector (snd kv)) selected_sector)
         registry.

(** The options of the company selector: [list(filtered_companies.keys())]. *)
Definition ticker_options (registry : list (string * Company))
    (selected_sector : string) : list string :=
  map fst (filtered_companies registry selected_sector).

(** [format_func]: the label of an option, [f"{x} - {filtered[x].name}"]. *)
Definition format_func (registry : list (string * Company))
    (selected_sector : string) (x : string) : result string :=
  (c <- dict_getitem (filtered_companies registry selected_sector) x ;;
   Ok (String.append x (String.append " - " (name c))))%result.

Definition string_lt (a b : string) : Prop := String.compare a b = Lt.

(* ===================================================================== *)
(** ** StockSentimentAnalyzer.get_stock_data *)

(** [df['Date'] = df.index]: the label is added when the frame does not
    carry it; the [Date] field of a typed row is its index label already. *)
Definition set_date_column (df : DataFrame PriceBar) : DataFrame PriceBar :=
  mkDataFrame
    (if in_dec string_dec "Date" (columns df) then columns df
     else columns df ++ ["Date"])
    (rows df).

(** [pd.DataFrame()]: no columns, no rows. *)
Definition empty_frame {R : Type} : DataFrame R := mkDataFrame [] [].

Section StockFetcher.

(** [t - timedelta(days=n)]; [None] is OverflowError. *)
Variable minus_days : datetime -> Z -> option datetime.
(** [yf.Ticker(ticker).history(start=..., end=..., interval='1d')]: the
    frame the market-data service answers, or the exception it raises. *)
Variable history : string -> datetime -> datetime -> result (DataFrame PriceBar).

(** [now] is the reading of [datetime.now()]; the whole body is inside the
    [try]. *)
Definition get_stock_data (ticker : string) (days : Z) (now : datetime)
  : io (DataFrame PriceBar) :=
  (try_except
     (let end_date := now in
      start_date <- io_lift (match minus_days end_date days with
                             | Some t => Ok t
                             | None => Raise OverflowError
                             end) ;;
      df <- io_lift (history ticker start_date end_date) ;;
      if negb (empty df) then io_ret (set_date_column df)
      else io_ret empty_frame)
     (fun e =>
        emit (logger_error "Error fetching stock data: " e) ;;
        io_ret empty_frame))%io.

End StockFetcher.

(* ===================================================================== *)
(** ** main: what the page renders *)

Inductive metric_value : Type :=
| metric_text (s : string)
| metric_int (n : Z).

(** The outputs of [main] in order: the events of the analyzer's calls
    ([backend]) and the Streamlit elements [main] itself renders. *)
Inductive ui_event : Type :=
| backend (ev : event)
| set_page_config (page_title layout : string)
| st_title (s : string)
| sidebar_title (s : string)
| st_spinner (msg : string)
| st_markdown (html : string)
| st_metric (label : string) (value : metric_value)
| st_plotly_chart (fig : Figure)
| ui_warning (msg : string)
| st_subheader (s : string)
| st_dataframe (table : list (string * string * float))
| st_info (msg : string)
| ui_error (prefix : string) (e : exn).

Definition ui (A : Type) : Type := list ui_event -> result A * list ui_event.

Definition ui_ret {A} (a : A) : ui A := fun tr => (Ok a, tr).

Definition ui_bind {A B} (m : ui A) (k : A -> ui B) : ui B :=
  fun tr =>
    match m tr with
    | (Ok a, tr') => k a tr'
    | (Raise e, tr') => (Raise e, tr')
    end.

Definition ui_lift {A} (r : result A) : ui A := fun tr => (r, tr).

Definition ui_emit (ev : ui_event) : ui unit := fun tr => (Ok tt, tr ++ [ev]).

(** A call into the analyzer: its events are appended as they come. *)
Definition run_backend {A} (m : io A) : ui A :=
  fun tr => let '(r, evs) := m [] in (r, tr ++ map backend evs).

Definition ui_try {A} (body : ui A) (handler : exn -> ui A) : ui A :=
  fun tr =>
    match body tr with
    | (Ok a, tr') => (Ok a, tr')
    | (Raise e, tr') => handler e tr'
    end.

Declare Scope ui_scope.
Delimit Scope ui_scope with ui.
Notation "x <- m ;; k" := (ui_bind m (fun x => k))
  (at level 61, m at next level, right associativity) : ui_scope.
Notation "m ;; k" := (ui_bind m (fun _ => k))
  (at level 61, right associativity) : ui_scope.

(** The order of naive datetimes: field by field, year first. *)
Definition datetime_key (t : datetime) : list Z :=
  [year t; month t; day t; hour t; minute t; second t].

Fixpoint lex_compare (a b : list Z) : comparison :=
  match a, b with
  | [], [] => Eq
  | [], _ :: _ => Lt
  | _ :: _, [] => Gt
  | x :: a', y :: b' =>
      match x ?= y with
      | Eq => lex_compare a' b'
      | c => c
      end
  end.

Definition datetime_compare (a b : datetime) : comparison :=
  lex_compare (datetime_key a) (datetime_key b).

Definition datetime_ltb (a b : datetime) : bool :=
  match datetime_compare a b with
  | Lt => true
  | _ => false
  end.

(** One more row in a list kept newest first; a row goes before the rows
    of its own timestamp. *)
Fixpoint insert_newest_first (r : SentimentRow) (l : list SentimentRow)
  : list SentimentRow :=
  match l with
  | [] => [r]
  | x :: rest =>
      if datetime_ltb (date r) (date x) then x :: insert_newest_first r rest
      else r :: l
  end.

(** [df.sort_values('date', ascending=False)] on the rows.  The source
    does not fix the order among rows of one timestamp; they keep their
    order here. *)
Definition sort_values_desc (l : list SentimentRow) : list SentimentRow :=
  fold_right insert_newest_first [] l.

(** [t.strftime('%Y-%m-%d %H:%M')]. *)
Definition strftime_minute (t : datetime) : string :=
  String.append (low_digits 4 (year t))
    (String.append "-"
       (String.append (low_digits 2 (month t))
          (String.append "-"
             (String.append (low_digits 2 (day t))
                (String.append " "
                   (String.append (low_digits 2 (hour t))
                      (String.append ":" (low_digits 2 (minute t))))))))).

(** The table handed to [st.dataframe]: the rows newest first, the date
    as text, the columns date, headline, sentiment. *)
Definition display_table (sentiment_df : DataFrame SentimentRow)
  : list (string * string * float) :=
  map (fun r => (strftime_minute (date r), headline r, sentiment r))
      (sort_values_desc (rows sentiment_df)).

(** What [main] reads: the configured key ([st.secrets] or the
    environment), the sidebar widgets (key field, the two selectors, the
    button; rendering them is not recorded as an event) and the two clock
    readings. *)
Record ui_inputs : Type := mkInputs {
  configured_key : option string;
  typed_key : string;
  selected_sector : string;
  selected_ticker : option string;
  analyze_pressed : bool;
  now_news : datetime;
  now_prices : datetime
}.

(** The key after the sidebar: the text input is read only when no key is
    configured, and kept only when it is not empty. *)
Definition resolve_key (configured : option string) (typed : string)
  : option string :=
  if falsy configured then
    (if falsy (Some typed) then configured else Some typed)
  else configured.

Definition advice_html (advice color : string) : string :=
  String.append "<h2 style='text-align: center; color: "
    (String.append color
       (String.append ";'>" (String.append advice "</h2>"))).

Section Main.

Variable strptime : string -> option datetime.
Variable polarity : string -> float.
Variable minus_days : datetime -> Z -> option datetime.
Variable strftime_ymd : datetime -> string.
Variable http : request -> result response.
Variable history : string -> datetime -> datetime -> result (DataFrame PriceBar).

(** Lines 211 to 241: everything rendered from the fetched data. *)
Definition render_analysis (company : Company) (headlines : list Headline)
    (sentiment_df : DataFrame SentimentRow) (stock_df : DataFrame PriceBar)
  : ui unit :=
  (advice_color <- ui_lift (Advisory.get_trading_advice sentiment_df stock_df) ;;
   let '(advice, color) := advice_color in
   ui_emit (st_markdown (advice_html advice color)) ;;
   average <- ui_lift (average_sentiment_metric sentiment_df) ;;
   ui_emit (st_metric "Average Sentiment" (metric_text average)) ;;
   ui_emit (st_metric "Headlines Analyzed"
              (metric_int (Z.of_nat (List.length headlines)))) ;;
   performance <- ui_lift (stock_performance_metric stock_df) ;;
   match performance with
   | Some text => ui_emit (st_metric "Stock Performance" (metric_text text))
   | None => ui_ret tt
   end ;;
   fig <- ui_lift (create_visualization stock_df sentiment_df (name company)) ;;
   match fig with
   | Some f => ui_emit (st_plotly_chart f)
   | None => ui_emit (ui_warning "Insufficient data for visualization.")
   end ;;
   if negb (empty sentiment_df) then
     ui_emit (st_subheader "Recent Headlines") ;;
     ui_emit (st_dataframe (display_table sentiment_df))
   else
     ui_emit (st_info "No headlines available for the selected period."))%ui.

(** The body of the [try] of [main]. *)
Definition analysis (api_key : option string) (inp : ui_inputs) : ui unit :=
  (ui_emit (st_spinner "Analyzing market data...") ;;
   company <- ui_lift (match selected_ticker inp with
                       | Some t => dict_getitem companies t
                       | None => Raise KeyError
                       end) ;;
   headlines <- run_backend
                  (fetch_news_headlines strptime polarity minus_days
                     strftime_ymd http api_key company 2 (now_news inp)) ;;
   let sentiment_df := analyze_sentiment headlines in
   stock_df <- run_backend
                 (get_stock_data minus_days history (ticker company) 2
                    (now_prices inp)) ;;
   render_analysis company headlines sentiment_df stock_df)%ui.

Definition main (inp : ui_inputs) : ui unit :=
  (ui_emit (set_page_config "Stock Sentiment Analysis" "wide") ;;
   ui_emit (st_title "Stock Sentiment Analysis Dashboard") ;;
   ui_emit (sidebar_title "Controls") ;;
   let api_key := resolve_key (configured_key inp) (typed_key inp) in
   if analyze_pressed inp && negb (falsy api_key) then
     ui_try (analysis api_key inp)
       (fun e =>
          ui_emit (ui_error "Analysis error: " e) ;;
          ui_emit (backend (logger_error "Analysis error: " e)))
   else ui_ret tt)%ui.

End Main.

(** The three elements rendered before anything else. *)
Definition page_header : list ui_event :=
  [ set_page_config "Stock Sentiment Analysis" "wide";
    st_title "Stock Sentiment Analysis Dashboard";
    sidebar_title "Controls" ].

(** The elements of the third metric column, of the chart slot and of the
    headline section. *)
Definition performance_events (performance : option string) : list ui_event :=
  match performance with
  | Some text => [st_metric "Stock Performance" (metric_text text)]
  | None => []
  end.

Definition chart_event (fig : option Figure) : ui_event :=
  match fig with
  | Some f => st_plotly_chart f
  | None => ui_warning "Insufficient data for visualization."
  end.

Definition headline_events (sentiment_df : DataFrame SentimentRow)
  : list ui_event :=
  if negb (empty sentiment_df)
  then [st_subheader "Recent Headlines";
        st_dataframe (display_table sentiment_df)]
  else [st_info "No headlines available for the selected period."].

Definition is_backend (ev : ui_event) : bool :=
  match ev with
  | backend _ => true
  | _ => false
  end.

(** The rows of a table are in descending date order. *)
Definition newest_first (l : list SentimentRow) : Prop :=
  StronglySorted (fun a b => datetime_ltb (date a) (date b) = false) l.

(** The number of values filed in a list of groups. *)
Definition group_total (groups : list (pydate * list float)) : nat :=
  List.length (List.concat (map snd groups)).

(* ===================================================================== *)
(** ** More sample data *)

Module Scenario.

Definition untitled_article : pyval :=
  PDict [("publishedAt", PStr "2024-03-05T10:00:00Z")].

Definition undated_article : pyval :=
  PDict [("title", PStr "No date given")].


(** Two good articles among three that are skipped. *)
Definition mixed_batch : list pyval :=
  [ Sample.good_article; untitled_article; Sample.bad_date_article;
    undated_article; Sample.other_article ].


Definition no_articles_response : response :=
  mkResponse 200 (Ok (PDict [("status", PStr "ok")])).

Definition rate_limited_body : list (string * pyval) :=
  [ ("status", PStr "error"); ("message", PStr "rateLimited");
    ("articles", PList [Sample.good_article]) ].

Definition rate_limited_response : response :=
  mkResponse 200 (Ok (PDict rate_limited_body)).

Definition window_start : datetime := mkDatetime 2024 3 3 12 0 0.

Definition request : request :=
  news_request Sample.strftime_ymd Sample.apple window_start Sample.noon "k".

(** The call with the sample instances, for a day count and an answer. *)
Definition fetch (days : Z) (outcome : result response)
  : result (list Headline) * list event :=
  fetch_news_headlines Sample.strptime Sample.polarity Sample.minus_days
    Sample.strftime_ymd (Sample.server outcome) (Some "k") Sample.apple
    days Sample.noon [].

(** A market-data service that answers every call with the same outcome,
    and a frame as the service labels it. *)
Definition market (answer : result (DataFrame PriceBar))
  : string -> datetime -> datetime -> result (DataFrame PriceBar) :=
  fun _ _ _ => answer.

Definition raw_frame (closes : list Z) : DataFrame PriceBar :=
  mkDataFrame
    ["Open"; "High"; "Low"; "Close"; "Volume"; "Dividends"; "Stock Splits"]
    (map Sample.bar closes).

Definition inputs (ticker : option string) (pressed : bool) : ui_inputs :=
  mkInputs (Some "k") "" "All" ticker pressed Sample.noon Sample.noon.

(** [main] with the sample instances, a news answer and a price answer. *)
Definition run_main (news : result response)
    (prices : result (DataFrame PriceBar)) (inp : ui_inputs)
  : result unit * list ui_event :=
  main Sample.strptime Sample.polarity Sample.minus_days Sample.strftime_ymd
    (Sample.server news) (market prices) inp [].

End Scenario.

(* ===================================================================== *)
(** * Properties *)

(** ** The literals and the order of binary64 *)

Lemma c_0_05_decimal : c_0_05 = decimal 5 100.
Proof. vm_compute. reflexivity. Qed.

Lemma c_0_04_decimal : c_0_04 = decimal 4 100.
Proof. vm_compute. reflexivity. Qed.

Lemma c_1_of_Z : c_1 = of_Z 1.
Proof. vm_compute. reflexivity. Qed.

Lemma c_100_of_Z : c_100 = of_Z 100.
Proof. vm_compute. reflexivity. Qed.

Lemma literals_valid :
  valid_binary prec emax c_0_05 = true /\
  valid_binary prec emax c_0_04 = true /\
  valid_binary prec emax c_1 = true /\
  valid_binary prec emax c_100 = true.
Proof. vm_compute. repeat split. Qed.








(** ** Positions of a series *)

Lemma iloc_first_ok {A} (x : A) (s : list A) : iloc (x :: s) 0 = Ok x.
Proof.
  unfold iloc. cbn [List.length].
  replace (0 <? 0) with false by reflexivity.
  rewrite orb_false_l.
  destruct (Z.leb_spec (Z.of_nat (S (List.length s))) 0); [lia | reflexivity].
Qed.

Lemma nth_error_last {A} (x d : A) (s : list A) :
  nth_error (x :: s) (List.length s) = Some (last (x :: s) d).
Proof.
  revert x. induction s as [| y s IH]; intros x; [reflexivity |].
  change (nth_error (y :: s) (List.length s) = Some (last (y :: s) d)).
  apply IH.
Qed.

Lemma iloc_last_ok {A} (x : A) (s : list A) :
  iloc (x :: s) (-1) = Ok (last (x :: s) x).
Proof.
  unfold iloc. cbn [List.length].
  replace (-1 <? 0) with true by reflexivity.
  set (n := Z.of_nat (S (List.length s))).
  assert (Hn : n = Z.of_nat (List.length s) + 1) by (unfold n; lia).
  destruct (Z.ltb_spec (n + -1) 0); [lia |].
  destruct (Z.leb_spec n (n + -1)); [lia |].
  simpl orb. cbv iota.
  replace (Z.to_nat (n + -1)) with (List.length s) by lia.
  rewrite (nth_error_last x x s). reflexivity.
Qed.


Lemma getitem_ok {R A} (df : DataFrame R) (label : string) (proj : R -> A) :
  In label (columns df) -> getitem df label proj = Ok (map proj (rows df)).
Proof.
  intros H. unfold getitem.
  destruct (in_dec string_dec label (columns df)); [reflexivity | contradiction].
Qed.

Lemma empty_false_rows {R} (df : DataFrame R) :
  empty df = false -> rows df <> [].
Proof.
  unfold empty. destruct (columns df), (rows df); congruence.
Qed.

(** ** The advisory rule *)

Import Advisory.

(** Past the guard, and with the columns it reads, the call returns the rule
    applied to the mean of the sentiment column. *)
Lemma get_trading_advice_past_guard
    (sentiment_df : DataFrame SentimentRow) (stock_df : DataFrame PriceBar) :
  empty sentiment_df = false -> empty stock_df = false -> 2 <= len stock_df ->
  In "Close" (columns stock_df) ->
  get_trading_advice sentiment_df stock_df =
    rbind (getitem sentiment_df "sentiment" sentiment)
          (fun s => Ok (advice_of_mean (Series_mean s))).
Proof.
  intros Hs Hp Hlen Hclose. unfold get_trading_advice.
  rewrite Hs, Hp. simpl orb.
  destruct (Z.ltb_spec (len stock_df) 2); [lia |].
  destruct (getitem sentiment_df "sentiment" sentiment) as [ss | e];
    [| reflexivity].
  simpl rbind. rewrite (getitem_ok stock_df "Close" Close Hclose).
  simpl rbind.
  pose proof (empty_false_rows stock_df Hp) as Hrows.
  destruct (rows stock_df) as [| b bs]; [congruence |].
  cbn [map]. rewrite iloc_last_ok, iloc_first_ok. simpl rbind.
  unfold advice_of_mean.
  destruct (gtb (Series_mean ss) c_0_05); [reflexivity |].
  destruct (ltb (Series_mean ss) c_0_04); reflexivity.
Qed.

Lemma advice_with_columns
    (sentiment_df : DataFrame SentimentRow) (stock_df : DataFrame PriceBar) :
  empty sentiment_df = false -> empty stock_df = false -> 2 <= len stock_df ->
  In "sentiment" (columns sentiment_df) -> In "Close" (columns stock_df) ->
  get_trading_advice sentiment_df stock_df =
    Ok (advice_of_mean (Series_mean (map sentiment (rows sentiment_df)))).
Proof.
  intros Hs Hp Hlen Hsent Hclose.
  rewrite (get_trading_advice_past_guard _ _ Hs Hp Hlen Hclose).
  rewrite (getitem_ok sentiment_df "sentiment" sentiment Hsent). reflexivity.
Qed.

(** An undefined mean (NaN: every score of the column is missing) passes
    neither test and falls to the default branch. *)
Lemma advice_of_nan_mean (s : float) :
  is_nan s = true -> advice_of_mean s = ("HOLD POSITION", "orange").
Proof.
  destruct s; simpl; try discriminate. reflexivity.
Qed.



(** C2. When the sentiment record set is empty, or the price series is
    empty, or the price series has fewer than 2 bars, [get_trading_advice]
    returns exactly ("NO ADVICE", "gray"), whatever the other input holds. *)
Theorem no_advice_on_insufficient_data
    (sentiment_df : DataFrame SentimentRow) (stock_df : DataFrame PriceBar) :
  empty sentiment_df = true \/ empty stock_df = true \/ len stock_df < 2 ->
  get_trading_advice sentiment_df stock_df = Ok ("NO ADVICE", "gray").
Proof.
  intros H. unfold get_trading_advice.
  destruct H as [H | [H | H]].
  - rewrite H. reflexivity.
  - rewrite H, orb_true_r. reflexivity.
  - destruct (Z.ltb_spec (len stock_df) 2); [| lia].
    rewrite orb_true_r. reflexivity.
Qed.

Lemma no_advice_on_insufficient_data_witness :
  get_trading_advice (Sample.sentiment_frame [decimal 9 10])
                     (Sample.stock_frame [150])
  = Ok ("NO ADVICE", "gray").
Proof.
  apply (no_advice_on_insufficient_data
           (Sample.sentiment_frame [decimal 9 10]) (Sample.stock_frame [150])).
  right. right. unfold len. simpl. lia.
Defined.

(** C3. For a fixed non-empty sentiment record set and any two price series
    of at least 2 bars each, [get_trading_advice] returns the same result:
    past the guard the price bars do not enter the decision. *)
Theorem advice_independent_of_prices
    (sentiment_df : DataFrame SentimentRow)
    (stock_df1 stock_df2 : DataFrame PriceBar) :
  empty sentiment_df = false ->
  empty stock_df1 = false -> 2 <= len stock_df1 ->
  In "Close" (columns stock_df1) ->
  empty stock_df2 = false -> 2 <= len stock_df2 ->
  In "Close" (columns stock_df2) ->
  get_trading_advice sentiment_df stock_df1 =
  get_trading_advice sentiment_df stock_df2.
Proof.
  intros Hs Hp1 Hl1 Hc1 Hp2 Hl2 Hc2.
  rewrite (get_trading_advice_past_guard _ _ Hs Hp1 Hl1 Hc1).
  rewrite (get_trading_advice_past_guard _ _ Hs Hp2 Hl2 Hc2).
  reflexivity.
Qed.

Lemma advice_independent_of_prices_witness :
  get_trading_advice (Sample.sentiment_frame [decimal 3 10; decimal 1 10])
                     (Sample.stock_frame [150; 145]) =
  get_trading_advice (Sample.sentiment_frame [decimal 3 10; decimal 1 10])
                     (Sample.stock_frame [100; 120; 190]).
Proof.
  apply (advice_independent_of_prices
           (Sample.sentiment_frame [decimal 3 10; decimal 1 10])
           (Sample.stock_frame [150; 145])
           (Sample.stock_frame [100; 120; 190])).
  - reflexivity.
  - reflexivity.
  - unfold len. simpl. lia.
  - simpl. auto.
  - reflexivity.
  - unfold len. simpl. lia.
  - simpl. auto.
Defined.

(** ** The news fetcher *)

Section NewsFetcherFacts.

Variable strptime : string -> option datetime.
Variable polarity : string -> float.
Variable minus_days : datetime -> Z -> option datetime.
Variable strftime_ymd : datetime -> string.
Variable http : request -> result response.

Let process := process_article strptime polarity.
Let loop := article_loop strptime polarity.
Let fetch := fetch_news_headlines strptime polarity minus_days strftime_ymd http.



(** An article without a [publishedAt] key is skipped as well (KeyError). *)
Lemma process_missing_timestamp (d : list (string * pyval)) :
  dict_get d "publishedAt" = None -> process (PDict d) = Raise KeyError.
Proof.
  intros H. unfold process, process_article, subscript. rewrite H. reflexivity.
Qed.

(** A timestamp that is not a string is a TypeError, which the inner
    handler does not catch. *)
Lemma process_null_timestamp (d : list (string * pyval)) :
  dict_get d "publishedAt" = Some PNone -> process (PDict d) = Raise TypeError.
Proof.
  intros H. unfold process, process_article, subscript. rewrite H. reflexivity.
Qed.






(** With a key and a computable window, the call is the body of the outer
    [try] for the outcome of the request. *)
Lemma fetch_with_key (key : string) (company : Company) (days : Z)
    (now start : datetime) (tr : list event) :
  falsy (Some key) = false -> minus_days now days = Some start ->
  let req := news_request strftime_ymd company start now key in
  fetch (Some key) company days now tr =
    try_except
      (io_bind (io_lift (http req)) (fun response =>
       io_bind (io_lift (raise_for_status response)) (fun _ =>
       io_bind (io_lift (json response)) (fun data =>
       io_bind (io_lift (py_get data "status" PNone)) (fun status =>
       if py_ne_str status "ok" then
         io_bind (io_lift (py_get data "message" (PStr "Unknown error")))
           (fun message =>
              io_bind (emit (st_warning "Error fetching news: " message))
                (fun _ => io_ret []))
       else
         io_bind (io_lift (py_get data "articles" (PList [])))
           (fun articles =>
              io_bind (io_lift (py_iter articles))
                (fun items => loop items [])))))))
      (fun e =>
         io_bind (emit (logger_error "Error fetching news: " e))
           (fun _ => io_ret []))
      (tr ++ [requests_get req]).
Proof.
  intros Hkey Hwin req. unfold fetch, fetch_news_headlines.
  rewrite Hkey. unfold io_bind at 1, io_lift at 1. rewrite Hwin.
  unfold try_except, io_bind, emit. fold req. reflexivity.
Qed.


(** C5. When the news API key is absent (None or empty),
    [fetch_news_headlines] returns the empty list without raising; it
    shows the error message and sends no request, whatever the service
    would answer. *)
Theorem missing_key_returns_empty_without_request
    (api_key : option string) (company : Company) (days : Z)
    (now : datetime) (tr : list event) :
  falsy api_key = true ->
  fetch api_key company days now tr =
    (Ok [], tr ++ [st_error "Please set your News API key in the sidebar"]) /\
  (forall req, In (requests_get req) (snd (fetch api_key company days now tr)) ->
               In (requests_get req) tr).
Proof.
  intros Hkey.
  assert (Hrun : fetch api_key company days now tr =
    (Ok [], tr ++ [st_error "Please set your News API key in the sidebar"])).
  { unfold fetch, fetch_news_headlines. rewrite Hkey. reflexivity. }
  split; [exact Hrun |].
  intros req Hin. rewrite Hrun in Hin. simpl in Hin.
  apply in_app_or in Hin. destruct Hin as [Hin | [Hin | []]];
    [exact Hin | discriminate].
Qed.

(** Past the window computation the call never raises: the outer handler
    turns every exception into the empty list. *)
Lemma fetch_never_raises (key : string) (company : Company) (days : Z)
    (now start : datetime) (tr : list event) :
  falsy (Some key) = false -> minus_days now days = Some start ->
  exists headlines tr', fetch (Some key) company days now tr = (Ok headlines, tr').
Proof.
  intros Hkey Hwin.
  rewrite (fetch_with_key key company days now start tr Hkey Hwin).
  cbv zeta. unfold try_except.
  match goal with
  | |- context [match ?body ?t with _ => _ end] => destruct (body t) as [[hs | e] tr']
  end.
  - eauto.
  - unfold io_bind, emit, io_ret. eauto.
Qed.

(** C6 (amended). On upstream request failure (a raised network error, a
    4xx or 5xx HTTP status, a body that is not JSON, or a JSON response
    whose status field is not 'ok'), [fetch_news_headlines] returns the
    empty list and raises nothing to its caller. *)
Theorem upstream_failure_returns_empty
    (key : string) (company : Company) (days : Z) (now start : datetime)
    (tr : list event) :
  falsy (Some key) = false ->
  minus_days now days = Some start ->
  upstream_failure (http (news_request strftime_ymd company start now key)) ->
  exists tr', fetch (Some key) company days now tr = (Ok [], tr').
Proof.
  intros Hkey Hwin Hfail.
  rewrite (fetch_with_key key company days now start tr Hkey Hwin).
  cbv zeta. unfold try_except, io_bind, io_lift, emit, io_ret.
  destruct Hfail as [[e He] | [[resp [He Hcode]] | [[resp [e [He Hj]]] |
                     [resp [data [He [Hj Hst]]]]]]]; rewrite He.
  - eauto.
  - unfold raise_for_status.
    destruct (Z.leb_spec 400 (status_code resp)); [| lia].
    destruct (Z.ltb_spec (status_code resp) 600); [| lia].
    simpl. eauto.
  - destruct (raise_for_status resp) as [[] | e']; [| eauto].
    rewrite Hj. eauto.
  - destruct (raise_for_status resp) as [[] | e']; [| eauto].
    rewrite Hj.
    destruct (py_get data "status" PNone) as [status | e']; [| eauto].
    rewrite Hst.
    destruct (py_get data "message" (PStr "Unknown error")); eauto.
Qed.

End NewsFetcherFacts.


Lemma missing_key_returns_empty_without_request_witness :
  Sample.fetch None (Ok (Sample.ok_response [Sample.good_article])) =
    (Ok [], [] ++ [st_error "Please set your News API key in the sidebar"]) /\
  (forall req,
      In (requests_get req)
         (snd (Sample.fetch None
                 (Ok (Sample.ok_response [Sample.good_article])))) ->
      In (requests_get req) []).
Proof.
  apply (missing_key_returns_empty_without_request
           Sample.strptime Sample.polarity Sample.minus_days
           Sample.strftime_ymd
           (Sample.server (Ok (Sample.ok_response [Sample.good_article])))
           None Sample.apple 2 Sample.noon []).
  reflexivity.
Defined.

Lemma upstream_failure_returns_empty_witness :
  exists tr',
    Sample.fetch (Some "k") (Ok Sample.not_found_response) = (Ok [], tr').
Proof.
  apply (upstream_failure_returns_empty
           Sample.strptime Sample.polarity Sample.minus_days
           Sample.strftime_ymd
           (Sample.server (Ok Sample.not_found_response))
           "k" Sample.apple 2 Sample.noon (mkDatetime 2024 3 3 12 0 0) []).
  - reflexivity.
  - vm_compute. reflexivity.
  - right. left. exists Sample.not_found_response.
    split; [reflexivity |]. simpl. lia.
Defined.

(** C6 as stated fails: a response whose status is not 2xx but which
    [raise_for_status] lets through (here 300) and which carries a body with
    status 'ok' is processed like a success, and its headlines are
    returned. *)
Lemma non_2xx_status_can_return_headlines :
  ~ (200 <= status_code Sample.multiple_choices_response < 300) /\
  fst (Sample.fetch (Some "k") (Ok Sample.multiple_choices_response)) =
    Ok [(mkDatetime 2024 3 5 9 30 0, "Shares soar on record profit",
         decimal 8 10)] /\
  fst (Sample.fetch (Some "k") (Ok Sample.multiple_choices_response)) <> Ok [].
Proof.
  split; [simpl; lia |].
  split; [vm_compute; reflexivity |].
  vm_compute. discriminate.
Qed.

(** A timestamp that is not a string (JSON null) is not skipped: the
    TypeError reaches the outer handler and the whole batch is dropped. *)
Lemma null_timestamp_drops_batch :
  fst (Sample.fetch (Some "k")
         (Ok (Sample.ok_response
                [Sample.good_article;
                 Sample.article PNone (PStr "Untimed");
                 Sample.other_article])))
  = Ok [].
Proof. vm_compute. reflexivity. Qed.

(** ** The order of calendar days *)

Lemma date_compare_refl (a : pydate) : date_compare a a = Eq.
Proof.
  unfold date_compare. rewrite !Z.compare_refl. reflexivity.
Qed.

Lemma date_compare_eq (a b : pydate) : date_compare a b = Eq -> a = b.
Proof.
  destruct a as [ya ma da], b as [yb mb db]. unfold date_compare. simpl.
  destruct (Z.compare_spec ya yb); try discriminate.
  destruct (Z.compare_spec ma mb); try discriminate.
  destruct (Z.compare_spec da db); try discriminate.
  intros _. subst. reflexivity.
Qed.

Lemma date_compare_antisym (a b : pydate) :
  date_compare b a = CompOpp (date_compare a b).
Proof.
  destruct a as [ya ma da], b as [yb mb db]. unfold date_compare. simpl.
  rewrite (Z.compare_antisym ya yb), (Z.compare_antisym ma mb),
    (Z.compare_antisym da db).
  destruct (ya ?= yb), (ma ?= mb), (da ?= db); reflexivity.
Qed.

Lemma date_lt_trans (a b c : pydate) : date_lt a b -> date_lt b c -> date_lt a c.
Proof.
  destruct a as [ya ma da], b as [yb mb db], c as [yc mc dc].
  unfold date_lt, date_compare. simpl.
  destruct (Z.compare_spec ya yb); try discriminate;
    destruct (Z.compare_spec yb yc); try discriminate;
    destruct (Z.compare_spec ya yc); try lia; try reflexivity;
    destruct (Z.compare_spec ma mb); try discriminate;
    destruct (Z.compare_spec mb mc); try discriminate;
    destruct (Z.compare_spec ma mc); try lia; try reflexivity;
    destruct (Z.compare_spec da db); try discriminate;
    destruct (Z.compare_spec db dc); try discriminate;
    destruct (Z.compare_spec da dc); try lia; try reflexivity.
Qed.

Lemma date_eqb_true (a b : pydate) : date_eqb a b = true <-> a = b.
Proof.
  unfold date_eqb. split.
  - destruct (date_compare a b) eqn:H; try discriminate.
    intros _. apply date_compare_eq. exact H.
  - intros ->. rewrite date_compare_refl. reflexivity.
Qed.

Lemma date_lt_not_eqb (a b : pydate) : date_lt a b -> date_eqb b a = false.
Proof.
  unfold date_lt, date_eqb. intros H.
  rewrite (date_compare_antisym a b), H. reflexivity.
Qed.

(** ** Grouping *)

Lemma values_of_key_cons (k : pydate) (g : pydate * list float)
    (groups : list (pydate * list float)) :
  values_of_key k (g :: groups) =
  (if date_eqb (fst g) k then snd g else []) ++ values_of_key k groups.
Proof. reflexivity. Qed.

Lemma values_of_key_above (k : pydate) (groups : list (pydate * list float)) :
  Forall (date_lt k) (map fst groups) -> values_of_key k groups = [].
Proof.
  induction groups as [| [k1 vs] rest IH]; intros H; [reflexivity |].
  inversion H as [| ? ? Hk Hrest]; subst.
  rewrite values_of_key_cons. cbn [fst snd].
  rewrite (date_lt_not_eqb k k1 Hk). apply IH. exact Hrest.
Qed.

Lemma group_insert_keys (k : pydate) (v : float)
    (groups : list (pydate * list float)) (k' : pydate) :
  In k' (map fst (group_insert k v groups)) <->
  k' = k \/ In k' (map fst groups).
Proof.
  induction groups as [| [k1 vs] rest IH]; cbn [group_insert].
  - simpl. intuition.
  - destruct (date_compare k k1) eqn:Hc; cbn [map fst In].
    + apply date_compare_eq in Hc. subst k1. intuition.
    + intuition.
    + rewrite IH. intuition.
Qed.

Lemma group_insert_sorted (k : pydate) (v : float)
    (groups : list (pydate * list float)) :
  keys_sorted groups -> keys_sorted (group_insert k v groups).
Proof.
  unfold keys_sorted.
  induction groups as [| [k1 vs] rest IH]; intros Hs; cbn [group_insert].
  - simpl. constructor; constructor.
  - cbn [map fst] in Hs. inversion Hs as [| ? ? Hrest Hall]; subst.
    destruct (date_compare k k1) eqn:Hc; cbn [map fst].
    + constructor; assumption.
    + constructor; [exact Hs |].
      constructor; [exact Hc |].
      eapply Forall_impl; [| exact Hall].
      intros a Ha. eapply date_lt_trans; [exact Hc | exact Ha].
    + constructor; [apply IH; exact Hrest |].
      apply Forall_forall. intros k' Hin.
      apply group_insert_keys in Hin. destruct Hin as [-> | Hin].
      * unfold date_lt. rewrite (date_compare_antisym k k1), Hc. reflexivity.
      * rewrite Forall_forall in Hall. apply Hall. exact Hin.
Qed.

Lemma values_of_key_insert (k : pydate) (v : float)
    (groups : list (pydate * list float)) (k' : pydate) :
  keys_sorted groups ->
  values_of_key k' (group_insert k v groups) =
  values_of_key k' groups ++ (if date_eqb k k' then [v] else []).
Proof.
  unfold keys_sorted.
  induction groups as [| [k1 vs] rest IH]; intros Hs; cbn [group_insert].
  - rewrite values_of_key_cons. cbn [fst snd].
    destruct (date_eqb k k'); reflexivity.
  - cbn [map fst] in Hs. inversion Hs as [| ? ? Hrest Hall]; subst.
    destruct (date_compare k k1) eqn:Hc.
    + apply date_compare_eq in Hc. subst k1.
      rewrite !values_of_key_cons. cbn [fst snd].
      destruct (date_eqb k k') eqn:Hk.
      * apply date_eqb_true in Hk. subst k'.
        rewrite (values_of_key_above k rest Hall).
        rewrite !app_nil_r. reflexivity.
      * rewrite app_nil_r. reflexivity.
    + rewrite (values_of_key_cons k' (k, [v])). cbn [fst snd].
      destruct (date_eqb k k') eqn:Hk.
      * apply date_eqb_true in Hk. subst k'.
        rewrite (values_of_key_above k ((k1, vs) :: rest)).
        -- reflexivity.
        -- cbn [map fst]. constructor; [exact Hc |].
           eapply Forall_impl; [| exact Hall].
           intros a Ha. eapply date_lt_trans; [exact Hc | exact Ha].
      * rewrite app_nil_r. reflexivity.
    + rewrite !values_of_key_cons. cbn [fst snd].
      rewrite (IH Hrest). rewrite app_assoc. reflexivity.
Qed.

Lemma group_insert_nonempty (k : pydate) (v : float)
    (groups : list (pydate * list float)) :
  Forall (fun g => snd g <> []) groups ->
  Forall (fun g => snd g <> []) (group_insert k v groups).
Proof.
  induction groups as [| [k1 vs] rest IH]; intros H; cbn [group_insert].
  - constructor; [discriminate | constructor].
  - inversion H as [| ? ? Hhd Htl]; subst.
    destruct (date_compare k k1).
    + constructor; [| exact Htl]. simpl. destruct vs; discriminate.
    + constructor; [discriminate | exact H].
    + constructor; [exact Hhd | apply IH; exact Htl].
Qed.

Lemma fold_group_insert (kvs : list (pydate * float)) :
  forall groups,
    keys_sorted groups -> Forall (fun g => snd g <> []) groups ->
    let groups' :=
      fold_left (fun gs kv => group_insert (fst kv) (snd kv) gs) kvs groups in
    keys_sorted groups' /\
    Forall (fun g => snd g <> []) groups' /\
    forall k, values_of_key k groups' = values_of_key k groups ++ pairs_of_key k kvs.
Proof.
  induction kvs as [| [k v] kvs IH]; intros groups Hs Hne; cbn [fold_left].
  - repeat split; try assumption.
    intros k. unfold pairs_of_key. simpl. rewrite app_nil_r. reflexivity.
  - cbn [fst snd].
    destruct (IH (group_insert k v groups)
                 (group_insert_sorted k v groups Hs)
                 (group_insert_nonempty k v groups Hne)) as [Hs' [Hne' Hv]].
    repeat split; try assumption.
    intros k'. rewrite Hv, (values_of_key_insert k v groups k' Hs).
    unfold pairs_of_key. cbn [filter fst].
    rewrite <- app_assoc.
    destruct (date_eqb k k'); reflexivity.
Qed.


Lemma values_of_key_nonempty_key (groups : list (pydate * list float))
    (k : pydate) :
  values_of_key k groups <> [] -> In k (map fst groups).
Proof.
  induction groups as [| [k1 vs1] rest IH];
    [intros H; contradiction H; reflexivity |].
  rewrite values_of_key_cons. cbn [fst snd map].
  destruct (date_eqb k1 k) eqn:Hk.
  - apply date_eqb_true in Hk. subst. intros _. left. reflexivity.
  - simpl. intros H. right. apply IH. exact H.
Qed.

Lemma pairs_of_key_rows (k : pydate) (records : list SentimentRow) :
  pairs_of_key k (combine (map date_of (map date records))
                          (map sentiment records))
  = scores_of_day k records.
Proof.
  unfold pairs_of_key, scores_of_day.
  induction records as [| r records IH]; [reflexivity |].
  cbn [map combine filter fst].
  destruct (date_eqb (date_of (date r)) k); cbn [map snd]; rewrite IH;
    reflexivity.
Qed.

Lemma scores_of_day_nonempty (k : pydate) (records : list SentimentRow) :
  scores_of_day k records <> [] <->
  exists r, In r records /\ date_of (date r) = k.
Proof.
  unfold scores_of_day. split.
  - intros H.
    destruct (filter (fun r => date_eqb (date_of (date r)) k) records)
      as [| r l] eqn:Hf; [contradiction H; reflexivity |].
    assert (Hin : In r (filter (fun r => date_eqb (date_of (date r)) k) records))
      by (rewrite Hf; left; reflexivity).
    apply filter_In in Hin. destruct Hin as [Hin Hk].
    exists r. split; [exact Hin | apply date_eqb_true; exact Hk].
  - intros [r [Hin Hk]] Hnil.
    assert (Hin' : In r (filter (fun r => date_eqb (date_of (date r)) k) records)).
    { apply filter_In. split; [exact Hin | apply date_eqb_true; exact Hk]. }
    apply (in_map sentiment) in Hin'. rewrite Hnil in Hin'. contradiction.
Qed.

Lemma groupby_mean_keys (keys : list pydate) (values : list float) :
  map fst (groupby_mean keys values) = map fst (groupby keys values).
Proof.
  unfold groupby_mean. rewrite map_map. reflexivity.
Qed.

Lemma groupby_rows (records : list SentimentRow) :
  let groups := groupby (map date_of (map date records))
                        (map sentiment records) in
  keys_sorted groups /\
  Forall (fun g => snd g <> []) groups /\
  forall d, values_of_key d groups = scores_of_day d records.
Proof.
  intros groups.
  destruct (fold_group_insert
              (combine (map date_of (map date records)) (map sentiment records))
              [] (SSorted_nil date_lt) (Forall_nil _)) as [Hs [Hne Hv]].
  repeat split; try assumption.
  intros d. unfold groups, groupby. rewrite Hv. simpl.
  apply pairs_of_key_rows.
Qed.

(** ** The chart *)






Lemma create_visualization_not_empty
    (stock_data : DataFrame PriceBar) (sentiment_data : DataFrame SentimentRow)
    (company_name : string) :
  empty stock_data = false ->
  create_visualization stock_data sentiment_data company_name <> Ok None.
Proof.
  intros Hp. unfold create_visualization. rewrite Hp.
  destruct (getitem stock_data "Open" Open); [| discriminate].
  destruct (getitem stock_data "High" High); [| discriminate].
  destruct (getitem stock_data "Low" Low); [| discriminate].
  destruct (getitem stock_data "Close" Close); [| discriminate].
  cbn [rbind].
  destruct (negb (empty sentiment_data)).
  - destruct (daily_sentiment_of sentiment_data); discriminate.
  - discriminate.
Qed.

(** C7. [create_visualization] returns None if and only if the price frame
    is empty; for a non-empty price frame (with its OHLC columns) and an
    empty sentiment frame it returns a figure whose only trace is the
    candlestick of the price bars, in row 1: the candlestick is populated
    and there is no sentiment trace. *)
Theorem visualization_absent_iff_no_prices
    (stock_data : DataFrame PriceBar) (sentiment_data : DataFrame SentimentRow)
    (company_name : string) :
  (create_visualization stock_data sentiment_data company_name = Ok None <->
   empty stock_data = true) /\
  (empty stock_data = false ->
   In "Open" (columns stock_data) -> In "High" (columns stock_data) ->
   In "Low" (columns stock_data) -> In "Close" (columns stock_data) ->
   empty sentiment_data = true ->
   exists fig,
     create_visualization stock_data sentiment_data company_name = Ok (Some fig) /\
     data fig =
       [(Candlestick (index stock_data)
           (map Open (rows stock_data)) (map High (rows stock_data))
           (map Low (rows stock_data)) (map Close (rows stock_data))
           "Stock Price", (1, 1))] /\
     index stock_data <> [] /\
     filter is_scatter (map fst (data fig)) = []).
Proof.
  split.
  - split.
    + intros Hnone. destruct (empty stock_data) eqn:Hp; [reflexivity |].
      exfalso.
      exact (create_visualization_not_empty _ sentiment_data company_name Hp Hnone).
    + intros Hp. unfold create_visualization. rewrite Hp. reflexivity.
  - intros Hp Ho Hh Hl Hc Hs.
    unfold create_visualization. rewrite Hp, Hs.
    rewrite (getitem_ok stock_data "Open" Open Ho).
    rewrite (getitem_ok stock_data "High" High Hh).
    rewrite (getitem_ok stock_data "Low" Low Hl).
    rewrite (getitem_ok stock_data "Close" Close Hc).
    cbn [rbind negb]. eexists. split; [reflexivity |].
    cbn [update_layout add_trace make_subplots data app map fst filter
         is_scatter is_candlestick negb].
    repeat split.
    pose proof (empty_false_rows stock_data Hp) as Hrows.
    unfold index. destruct (rows stock_data); [congruence | discriminate].
Qed.

Lemma visualization_absent_iff_no_prices_witness :
  exists fig,
    create_visualization (Sample.stock_frame [100; 110])
      (Sample.sentiment_frame []) "Apple Inc" = Ok (Some fig) /\
    data fig =
      [(Candlestick (index (Sample.stock_frame [100; 110]))
          (map Open (rows (Sample.stock_frame [100; 110])))
          (map High (rows (Sample.stock_frame [100; 110])))
          (map Low (rows (Sample.stock_frame [100; 110])))
          (map Close (rows (Sample.stock_frame [100; 110])))
          "Stock Price", (1, 1))] /\
    index (Sample.stock_frame [100; 110]) <> [] /\
    filter is_scatter (map fst (data fig)) = [].
Proof.
  apply (proj2 (visualization_absent_iff_no_prices
                  (Sample.stock_frame [100; 110]) (Sample.sentiment_frame [])
                  "Apple Inc")).
  - reflexivity.
  - simpl. auto.
  - simpl. auto.
  - simpl. auto.
  - simpl. auto 6.
  - reflexivity.
Defined.

(** With sentiment records the figure has a second trace, in row 2: the
    daily sentiment series as a line with markers. *)
Lemma visualization_with_sentiment
    (stock_data : DataFrame PriceBar) (sentiment_data : DataFrame SentimentRow)
    (company_name : string) (daily : list (pydate * float)) :
  empty stock_data = false ->
  In "Open" (columns stock_data) -> In "High" (columns stock_data) ->
  In "Low" (columns stock_data) -> In "Close" (columns stock_data) ->
  empty sentiment_data = false ->
  daily_sentiment_of sentiment_data = Ok daily ->
  exists fig,
    create_visualization stock_data sentiment_data company_name = Ok (Some fig) /\
    data fig =
      [(Candlestick (index stock_data)
          (map Open (rows stock_data)) (map High (rows stock_data))
          (map Low (rows stock_data)) (map Close (rows stock_data))
          "Stock Price", (1, 1));
       (Scatter (map fst daily) (map snd daily) "lines+markers"
          "Daily Sentiment" 8, (2, 1))].
Proof.
  intros Hp Ho Hh Hl Hc Hs Hd.
  unfold create_visualization. rewrite Hp, Hs, Hd.
  rewrite (getitem_ok stock_data "Open" Open Ho).
  rewrite (getitem_ok stock_data "High" High Hh).
  rewrite (getitem_ok stock_data "Low" Low Hl).
  rewrite (getitem_ok stock_data "Close" Close Hc).
  cbn [rbind negb]. eexists. split; reflexivity.
Qed.

(** ** The performance metric *)



(** The end-to-end display of the running example: closes [150, 145] read
    "-3.3%" and the mean of the scores 0.3 and 0.1 reads "0.20". *)
Lemma example_metrics :
  stock_performance_metric (Sample.stock_frame [150; 145]) = Ok (Some "-3.3%") /\
  average_sentiment_metric
    (Sample.sentiment_frame [decimal 3 10; decimal 1 10]) = Ok "0.20" /\
  average_sentiment_metric (Sample.sentiment_frame []) = Ok "N/A".
Proof. repeat split; vm_compute; reflexivity. Qed.

(** ** The record builder *)

Lemma fold_left_append_rows (headlines : list Headline) (acc : list SentimentRow) :
  fold_left
    (fun results (h : Headline) =>
       let '(date, headline, sentiment) := h in
       results ++ [mkSentimentRow date headline sentiment])
    headlines acc
  = acc ++ map row_of headlines.
Proof.
  revert acc. induction headlines as [| [[d t] s] headlines IH]; intros acc.
  - simpl. rewrite app_nil_r. reflexivity.
  - cbn [fold_left map]. rewrite IH, <- app_assoc. reflexivity.
Qed.

(** C10. [analyze_sentiment] returns a record set with exactly one row per
    headline tuple, in the order of the list, each row carrying the date,
    the headline text and the sentiment of its tuple unchanged; on the empty
    list the record set is empty, with the columns date, headline and
    sentiment. *)
Theorem analyze_sentiment_keeps_rows (headlines : list Headline) :
  rows (analyze_sentiment headlines) = map row_of headlines /\
  List.length (rows (analyze_sentiment headlines)) = List.length headlines /\
  (forall (i : nat) (d : datetime) (t : string) (s : float),
      nth_error headlines i = Some (d, t, s) <->
      exists r, nth_error (rows (analyze_sentiment headlines)) i = Some r /\
                date r = d /\ headline r = t /\ sentiment r = s) /\
  columns (analyze_sentiment headlines) = ["date"; "headline"; "sentiment"] /\
  rows (analyze_sentiment []) = [] /\
  empty (analyze_sentiment []) = true /\
  columns (analyze_sentiment []) = ["date"; "headline"; "sentiment"].
Proof.
  assert (Hrows : rows (analyze_sentiment headlines) = map row_of headlines).
  { destruct headlines as [| h headlines]; [reflexivity |].
    unfold analyze_sentiment. cbn [rows].
    rewrite fold_left_append_rows. reflexivity. }
  split; [exact Hrows |].
  split; [rewrite Hrows; apply length_map |].
  split.
  - intros i d t s. rewrite Hrows, nth_error_map. split.
    + intros H. rewrite H. cbn [option_map]. eexists. split; [reflexivity |].
      repeat split.
    + intros [r [H [Hd [Ht Hs]]]].
      destruct (nth_error headlines i) as [[[d' t'] s'] |]; [| discriminate].
      cbn [option_map row_of] in H. inversion H; subst. reflexivity.
  - repeat split. destruct headlines; reflexivity.
Qed.

(* ===================================================================== *)
(** * Further properties of the code *)

(** ** The article loop, article by article *)

Section ArticleLoopFacts.

Variable strptime : string -> option datetime.
Variable polarity : string -> float.
Variable minus_days : datetime -> Z -> option datetime.
Variable strftime_ymd : datetime -> string.
Variable http : request -> result response.

Let process' := process_article strptime polarity.
Let loop' := article_loop strptime polarity.
Let fetch' := fetch_news_headlines strptime polarity minus_days strftime_ymd http.
Let kept := headlines_of strptime polarity.

(** What the inner [try] does with an article, by its treatment. *)
Lemma process_by_treatment (a : pyval) :
  match treatment_of strptime a with
  | Kept =>
      exists h, headline_of strptime polarity a = Some h /\ process' a = Ok h
  | Skipped e =>
      headline_of strptime polarity a = None /\ process' a = Raise e /\
      (e = ValueError \/ e = KeyError)
  | Fatal e =>
      headline_of strptime polarity a = None /\ process' a = Raise e /\
      e = TypeError
  end.
Proof.
  unfold process', treatment_of, headline_of, process_article, published_at,
    title_of, subscript.
  destruct a as [| | | | | | d]; try (repeat split; reflexivity).
  destruct (dict_get d "publishedAt") as [[| | | | ts | |] |];
    try (repeat split; auto; reflexivity).
  cbn [rbind py_strptime].
  destruct (strptime ts) as [date |].
  - cbn [rbind].
    destruct (dict_get d "title") as [[| | | | t | |] |];
      try (repeat split; auto; reflexivity).
    eexists. split; reflexivity.
  - cbn [rbind].
    destruct (dict_get d "title") as [[| | | | t | |] |];
      repeat split; auto.
Qed.

Lemma kept_cons (a : pyval) (rest : list pyval) :
  kept (a :: rest) =
  match headline_of strptime polarity a with
  | Some h => [h]
  | None => []
  end ++ kept rest.
Proof. reflexivity. Qed.

(** The loop on a whole batch: the headlines of the kept articles when no
    article is fatal, a TypeError otherwise; the warnings are those of the
    skipped articles met on the way. *)
Lemma loop_by_treatment (articles : list pyval) :
  forall acc tr,
    loop' articles acc tr =
      (if existsb (is_fatal strptime) articles then Raise TypeError
       else Ok (acc ++ kept articles),
       tr ++ loop_warnings strptime articles).
Proof.
  induction articles as [| a rest IH]; intros acc tr.
  - simpl. rewrite !app_nil_r. reflexivity.
  - pose proof (process_by_treatment a) as Ha.
    unfold loop', process' in *. cbn [article_loop existsb loop_warnings].
    unfold is_fatal at 1. rewrite kept_cons.
    destruct (treatment_of strptime a) as [| e | e].
    + destruct Ha as [h [Hh Hp]]. rewrite Hp, Hh, IH.
      cbn [orb]. rewrite <- app_assoc. reflexivity.
    + destruct Ha as [Hh [Hp He]]. rewrite Hp, Hh.
      cbn [orb app].
      destruct He as [-> | ->]; unfold io_bind, emit; rewrite IH;
        rewrite <- app_assoc; reflexivity.
    + destruct Ha as [Hh [Hp ->]]. rewrite Hp.
      cbn [orb]. unfold io_raise. rewrite app_nil_r. reflexivity.
Qed.

Lemma loop_warnings_are_not_requests (articles : list pyval) :
  Forall (fun ev => is_request ev = false) (loop_warnings strptime articles).
Proof.
  induction articles as [| a rest IH]; [constructor |].
  cbn [loop_warnings]. destruct (treatment_of strptime a);
    [exact IH | constructor; [reflexivity | exact IH] | constructor].
Qed.

Lemma counts_without_fatal (articles : list pyval) :
  existsb (is_fatal strptime) articles = false ->
  (List.length (kept articles)
   + List.length (filter (is_skipped strptime) articles)
   = List.length articles)%nat /\
  List.length (loop_warnings strptime articles)
  = List.length (filter (is_skipped strptime) articles).
Proof.
  induction articles as [| a rest IH]; [intros _; split; reflexivity |].
  cbn [existsb filter loop_warnings]. rewrite kept_cons.
  pose proof (process_by_treatment a) as Ha.
  assert (Hf : is_fatal strptime a =
               match treatment_of strptime a with Fatal _ => true | _ => false end)
    by reflexivity.
  assert (Hs : is_skipped strptime a =
               match treatment_of strptime a with Skipped _ => true | _ => false end)
    by reflexivity.
  rewrite Hf, Hs. clear Hf Hs.
  destruct (treatment_of strptime a) as [| e | e]; cbn [orb]; intros Hrest;
    try discriminate; destruct (IH Hrest) as [H1 H2].
  - destruct Ha as [h [Hh _]]. rewrite Hh. cbn [app List.length].
    split; [rewrite <- H1; reflexivity | exact H2].
  - destruct Ha as [Hh _]. rewrite Hh. cbn [app List.length].
    split; [rewrite <- H1; apply Nat.add_succ_r | rewrite H2; reflexivity].
Qed.

(** The call on a successful response, whatever its articles are. *)
Lemma fetch_successful_response
    (key : string) (company : Company) (days : Z) (now start : datetime)
    (resp : response) (articles : list pyval) (tr : list event) :
  falsy (Some key) = false ->
  minus_days now days = Some start ->
  http (news_request strftime_ymd company start now key) = Ok resp ->
  successful_response resp articles ->
  fetch' (Some key) company days now tr =
    (Ok (if existsb (is_fatal strptime) articles then [] else kept articles),
     tr ++ [requests_get (news_request strftime_ymd company start now key)]
        ++ loop_warnings strptime articles
        ++ (if existsb (is_fatal strptime) articles
            then [logger_error "Error fetching news: " TypeError]
            else [])).
Proof.
  intros Hkey Hwin Hhttp [Hstatus [data [Hjson [Hok Harts]]]].
  unfold fetch'.
  rewrite (fetch_with_key strptime polarity minus_days strftime_ymd http
             key company days now start tr Hkey Hwin).
  cbv zeta. unfold try_except, io_bind, io_lift.
  rewrite Hhttp, Hstatus, Hjson, Hok.
  change (py_ne_str (PStr "ok") "ok") with false. cbv beta iota.
  rewrite Harts. cbn [py_iter]. cbv beta iota.
  fold loop'. rewrite loop_by_treatment. fold kept.
  destruct (existsb (is_fatal strptime) articles).
  - unfold emit, io_ret. cbn [app]. rewrite <- !app_assoc. reflexivity.
  - cbn [app]. rewrite app_nil_r, <- app_assoc. reflexivity.
Qed.

(** X1. On a successful response none of whose articles is fatal, every
    article is either kept or skipped on its own: the result is the headline
    tuples of the kept articles in order, kept plus skipped is the number of
    articles, and one warning is logged per skipped article (a timestamp
    that does not parse, a missing [publishedAt] or a missing [title]). *)
Theorem skipped_articles_cost_only_themselves
    (key : string) (company : Company) (days : Z) (now start : datetime)
    (resp : response) (articles : list pyval) (tr : list event) :
  falsy (Some key) = false ->
  minus_days now days = Some start ->
  http (news_request strftime_ymd company start now key) = Ok resp ->
  successful_response resp articles ->
  existsb (is_fatal strptime) articles = false ->
  exists headlines warnings,
    fetch' (Some key) company days now tr =
      (Ok headlines,
       tr ++ requests_get (news_request strftime_ymd company start now key)
          :: warnings) /\
    headlines = headlines_of strptime polarity articles /\
    (List.length headlines
     + List.length (filter (is_skipped strptime) articles)
     = List.length articles)%nat /\
    List.length warnings
    = List.length (filter (is_skipped strptime) articles).
Proof.
  intros Hkey Hwin Hhttp Hresp Hnofatal.
  exists (kept articles), (loop_warnings strptime articles).
  rewrite (fetch_successful_response key company days now start resp articles
             tr Hkey Hwin Hhttp Hresp), Hnofatal.
  destruct (counts_without_fatal articles Hnofatal) as [H1 H2].
  repeat split; try assumption.
  cbn [app]. rewrite app_nil_r. reflexivity.
Qed.


(** X3. The window is computed before the [try]: with a key, a day count
    for which [now - timedelta(days)] overflows makes the call raise
    OverflowError to its caller, before any request is sent or anything is
    logged. *)
Theorem window_overflow_is_raised
    (key : string) (company : Company) (days : Z) (now : datetime)
    (tr : list event) :
  falsy (Some key) = false ->
  minus_days now days = None ->
  fetch' (Some key) company days now tr = (Raise OverflowError, tr).
Proof.
  intros Hkey Hwin. unfold fetch', fetch_news_headlines.
  rewrite Hkey. unfold io_bind at 1, io_lift at 1. rewrite Hwin. reflexivity.
Qed.

(** X4. With a key and a window, the call sends exactly one request,
    first of all, whatever the service answers: no retry, no second page. *)
Theorem exactly_one_request
    (key : string) (company : Company) (days : Z) (now start : datetime)
    (tr : list event) :
  falsy (Some key) = false ->
  minus_days now days = Some start ->
  exists rest,
    snd (fetch' (Some key) company days now tr) =
      tr ++ requests_get (news_request strftime_ymd company start now key)
         :: rest /\
    Forall (fun ev => is_request ev = false) rest.
Proof.
  intros Hkey Hwin. unfold fetch'.
  rewrite (fetch_with_key strptime polarity minus_days strftime_ymd http
             key company days now start tr Hkey Hwin).
  cbv zeta. unfold try_except, io_bind, io_lift, emit, io_ret.
  set (req := news_request strftime_ymd company start now key).
  assert (Hone : forall l, (tr ++ [requests_get req]) ++ l
                           = tr ++ requests_get req :: l).
  { intros l. rewrite <- app_assoc. reflexivity. }
  destruct (http req) as [resp | e];
    [| eexists; split; [apply Hone | repeat constructor]].
  destruct (raise_for_status resp) as [[] | e];
    [| eexists; split; [apply Hone | repeat constructor]].
  destruct (json resp) as [data | e];
    [| eexists; split; [apply Hone | repeat constructor]].
  destruct (py_get data "status" PNone) as [status | e];
    [| eexists; split; [apply Hone | repeat constructor]].
  destruct (py_ne_str status "ok").
  - destruct (py_get data "message" (PStr "Unknown error")) as [m | e];
      eexists; (split; [apply Hone | repeat constructor]).
  - destruct (py_get data "articles" (PList [])) as [arts | e];
      [| eexists; split; [apply Hone | repeat constructor]].
    destruct (py_iter arts) as [items | e];
      [| eexists; split; [apply Hone | repeat constructor]].
    fold loop'. rewrite (loop_by_treatment items [] (tr ++ [requests_get req])).
    pose proof (loop_warnings_are_not_requests items) as Hw.
    destruct (existsb (is_fatal strptime) items); cbn [snd].
    + eexists. split; [rewrite <- !app_assoc; reflexivity |].
      apply Forall_app. split; [exact Hw | repeat constructor].
    + eexists. split; [apply Hone | exact Hw].
Qed.

Lemma kept_are_scored (articles : list pyval) :
  Forall (fun h : Headline =>
            snd h = polarity (snd (fst h)) /\
            exists ts, strptime ts = Some (fst (fst h)))
         (kept articles).
Proof.
  induction articles as [| a rest IH]; [constructor |].
  rewrite kept_cons. unfold headline_of.
  destruct (published_at a) as [ts |]; [| exact IH].
  destruct (title_of a) as [t |]; [| exact IH].
  destruct (strptime ts) as [d |] eqn:Hd; [| exact IH].
  constructor; [| exact IH]. split; [reflexivity |]. exists ts. exact Hd.
Qed.

(** X5. Whatever the key and whatever the service answers, every returned
    tuple (date, title, sentiment) carries the polarity of its own title as
    sentiment and a date that [strptime] produced. *)
Theorem returned_headlines_are_scored
    (api_key : option string) (company : Company) (days : Z) (now : datetime)
    (tr tr' : list event) (headlines : list Headline) :
  fetch' api_key company days now tr = (Ok headlines, tr') ->
  Forall (fun h : Headline =>
            snd h = polarity (snd (fst h)) /\
            exists ts, strptime ts = Some (fst (fst h)))
         headlines.
Proof.
  unfold fetch', fetch_news_headlines.
  destruct (falsy api_key).
  - unfold io_bind, emit, io_ret. intros H. inversion H. constructor.
  - unfold io_bind at 1, io_lift at 1.
    destruct (minus_days now days) as [start |]; [| discriminate].
    unfold try_except, io_bind, io_lift, emit, io_ret.
    set (req := news_request _ _ _ _ _).
    destruct (http req) as [resp | e];
      [| intros H; inversion H; constructor].
    destruct (raise_for_status resp) as [[] | e];
      [| intros H; inversion H; constructor].
    destruct (json resp) as [data | e];
      [| intros H; inversion H; constructor].
    destruct (py_get data "status" PNone) as [status | e];
      [| intros H; inversion H; constructor].
    destruct (py_ne_str status "ok").
    + destruct (py_get data "message" (PStr "Unknown error")) as [m | e];
        intros H; inversion H; constructor.
    + destruct (py_get data "articles" (PList [])) as [arts | e];
        [| intros H; inversion H; constructor].
      destruct (py_iter arts) as [items | e];
        [| intros H; inversion H; constructor].
      fold loop'. rewrite (loop_by_treatment items []).
      destruct (existsb (is_fatal strptime) items);
        intros H; inversion H; [constructor |].
      apply kept_are_scored.
Qed.

(** X6. A body with status 'ok' and no [articles] key is an empty batch:
    the call returns the empty list and logs nothing. *)
Theorem missing_articles_is_an_empty_batch
    (key : string) (company : Company) (days : Z) (now start : datetime)
    (resp : response) (d : list (string * pyval)) (tr : list event) :
  falsy (Some key) = false ->
  minus_days now days = Some start ->
  http (news_request strftime_ymd company start now key) = Ok resp ->
  raise_for_status resp = Ok tt ->
  json resp = Ok (PDict d) ->
  dict_get d "status" = Some (PStr "ok") ->
  dict_get d "articles" = None ->
  fetch' (Some key) company days now tr =
    (Ok [], tr ++ [requests_get (news_request strftime_ymd company start now key)]).
Proof.
  intros Hkey Hwin Hhttp Hstatus Hjson Hok Harts.
  assert (Hresp : successful_response resp []).
  { split; [exact Hstatus |]. exists (PDict d).
    split; [exact Hjson |]. unfold py_get. rewrite Hok, Harts. split; reflexivity. }
  rewrite (fetch_successful_response key company days now start resp [] tr
             Hkey Hwin Hhttp Hresp).
  reflexivity.
Qed.

(** X7. The articles of a body whose status is not 'ok' are never read:
    the call shows the service's message in a warning ("Unknown error" when
    the body has none), logs no error and returns the empty list. *)
Theorem articles_of_a_failed_status_are_ignored
    (key : string) (company : Company) (days : Z) (now start : datetime)
    (resp : response) (d : list (string * pyval)) (tr : list event) :
  falsy (Some key) = false ->
  minus_days now days = Some start ->
  http (news_request strftime_ymd company start now key) = Ok resp ->
  raise_for_status resp = Ok tt ->
  json resp = Ok (PDict d) ->
  dict_get d "status" <> Some (PStr "ok") ->
  fetch' (Some key) company days now tr =
    (Ok [],
     tr ++ [requests_get (news_request strftime_ymd company start now key);
            st_warning "Error fetching news: "
              (match dict_get d "message" with
               | Some m => m
               | None => PStr "Unknown error"
               end)]).
Proof.
  intros Hkey Hwin Hhttp Hstatus Hjson Hnot.
  unfold fetch'.
  rewrite (fetch_with_key strptime polarity minus_days strftime_ymd http
             key company days now start tr Hkey Hwin).
  cbv zeta. unfold try_except, io_bind, io_lift.
  rewrite Hhttp, Hstatus, Hjson. cbn [py_get].
  assert (Hne : py_ne_str (match dict_get d "status" with
                           | Some x => x
                           | None => PNone
                           end) "ok" = true).
  { destruct (dict_get d "status") as [[| | | | s | |] |]; try reflexivity.
    unfold py_ne_str. destruct (string_dec s "ok") as [-> | _];
      [contradiction Hnot; reflexivity | reflexivity]. }
  destruct (dict_get d "status") as [st |]; cbv beta iota; rewrite Hne;
    destruct (dict_get d "message") as [m |]; unfold emit, io_ret;
    rewrite <- app_assoc; reflexivity.
Qed.

End ArticleLoopFacts.

Lemma skipped_articles_cost_only_themselves_witness :
  exists headlines warnings,
    Scenario.fetch 2 (Ok (Sample.ok_response Scenario.mixed_batch)) =
      (Ok headlines, [] ++ requests_get Scenario.request :: warnings) /\
    headlines =
      headlines_of Sample.strptime Sample.polarity Scenario.mixed_batch /\
    (List.length headlines
     + List.length (filter (is_skipped Sample.strptime) Scenario.mixed_batch)
     = List.length Scenario.mixed_batch)%nat /\
    List.length warnings
    = List.length (filter (is_skipped Sample.strptime) Scenario.mixed_batch).
Proof.
  apply (skipped_articles_cost_only_themselves
           Sample.strptime Sample.polarity Sample.minus_days
           Sample.strftime_ymd
           (Sample.server (Ok (Sample.ok_response Scenario.mixed_batch)))
           "k" Sample.apple 2 Sample.noon Scenario.window_start
           (Sample.ok_response Scenario.mixed_batch) Scenario.mixed_batch []).
  - reflexivity.
  - vm_compute. reflexivity.
  - reflexivity.
  - split; [reflexivity |].
    eexists. split; [reflexivity |]. split; reflexivity.
  - vm_compute. reflexivity.
Defined.


Lemma window_overflow_is_raised_witness :
  Scenario.fetch 4000000000 (Ok (Sample.ok_response [Sample.good_article])) =
    (Raise OverflowError, []).
Proof.
  apply (window_overflow_is_raised
           Sample.strptime Sample.polarity Sample.minus_days
           Sample.strftime_ymd
           (Sample.server (Ok (Sample.ok_response [Sample.good_article])))
           "k" Sample.apple 4000000000 Sample.noon []).
  - reflexivity.
  - vm_compute. reflexivity.
Defined.

Lemma exactly_one_request_witness :
  exists rest,
    snd (Scenario.fetch 2 (Ok (Sample.ok_response Scenario.mixed_batch))) =
      [] ++ requests_get Scenario.request :: rest /\
    Forall (fun ev => is_request ev = false) rest.
Proof.
  apply (exactly_one_request
           Sample.strptime Sample.polarity Sample.minus_days
           Sample.strftime_ymd
           (Sample.server (Ok (Sample.ok_response Scenario.mixed_batch)))
           "k" Sample.apple 2 Sample.noon Scenario.window_start []).
  - reflexivity.
  - vm_compute. reflexivity.
Defined.

Lemma returned_headlines_are_scored_witness :
  Forall (fun h : Headline =>
            snd h = Sample.polarity (snd (fst h)) /\
            exists ts, Sample.strptime ts = Some (fst (fst h)))
         (headlines_of Sample.strptime Sample.polarity Scenario.mixed_batch).
Proof.
  apply (returned_headlines_are_scored
           Sample.strptime Sample.polarity Sample.minus_days
           Sample.strftime_ymd
           (Sample.server (Ok (Sample.ok_response Scenario.mixed_batch)))
           (Some "k") Sample.apple 2 Sample.noon []
           (snd (Scenario.fetch 2 (Ok (Sample.ok_response Scenario.mixed_batch))))).
  vm_compute. reflexivity.
Defined.

Lemma missing_articles_is_an_empty_batch_witness :
  Scenario.fetch 2 (Ok Scenario.no_articles_response) =
    (Ok [], [] ++ [requests_get Scenario.request]).
Proof.
  apply (missing_articles_is_an_empty_batch
           Sample.strptime Sample.polarity Sample.minus_days
           Sample.strftime_ymd
           (Sample.server (Ok Scenario.no_articles_response))
           "k" Sample.apple 2 Sample.noon Scenario.window_start
           Scenario.no_articles_response [("status", PStr "ok")] []).
  - reflexivity.
  - vm_compute. reflexivity.
  - reflexivity.
  - reflexivity.
  - reflexivity.
  - reflexivity.
  - reflexivity.
Defined.

Lemma articles_of_a_failed_status_are_ignored_witness :
  Scenario.fetch 2 (Ok Scenario.rate_limited_response) =
    (Ok [],
     [] ++ [requests_get Scenario.request;
            st_warning "Error fetching news: "
              (match dict_get Scenario.rate_limited_body "message" with
               | Some m => m
               | None => PStr "Unknown error"
               end)]).
Proof.
  apply (articles_of_a_failed_status_are_ignored
           Sample.strptime Sample.polarity Sample.minus_days
           Sample.strftime_ymd
           (Sample.server (Ok Scenario.rate_limited_response))
           "k" Sample.apple 2 Sample.noon Scenario.window_start
           Scenario.rate_limited_response Scenario.rate_limited_body []).
  - reflexivity.
  - vm_compute. reflexivity.
  - reflexivity.
  - reflexivity.
  - reflexivity.
  - vm_compute. discriminate.
Defined.

(** ** The advisory rule, further *)

Lemma guard_passed_inv
    (sentiment_df : DataFrame SentimentRow) (stock_df : DataFrame PriceBar) :
  empty sentiment_df || empty stock_df || (len stock_df <? 2) = false ->
  empty sentiment_df = false /\ empty stock_df = false /\ 2 <= len stock_df.
Proof.
  intros H. apply orb_false_elim in H. destruct H as [H Hlen].
  apply orb_false_elim in H. destruct H as [Hs Hp].
  repeat split; try assumption.
  destruct (Z.ltb_spec (len stock_df) 2); [discriminate | lia].
Qed.

(** X8. Given the two columns it reads, [get_trading_advice] never raises
    and returns one of exactly four (label, color) pairs; the color is
    determined by the label. *)
Theorem advice_is_one_of_four
    (sentiment_df : DataFrame SentimentRow) (stock_df : DataFrame PriceBar) :
  In "sentiment" (columns sentiment_df) -> In "Close" (columns stock_df) ->
  In (get_trading_advice sentiment_df stock_df)
     [ Ok ("NO ADVICE", "gray"); Ok ("BUYING ADVISED", "green");
       Ok ("SELLING ADVISED", "red"); Ok ("HOLD POSITION", "orange") ].
Proof.
  intros Hsent Hclose.
  destruct (empty sentiment_df || empty stock_df || (len stock_df <? 2))
    eqn:Hguard.
  - unfold get_trading_advice. rewrite Hguard. left. reflexivity.
  - destruct (guard_passed_inv _ _ Hguard) as [Hs [Hp Hlen]].
    rewrite (advice_with_columns _ _ Hs Hp Hlen Hsent Hclose).
    unfold advice_of_mean.
    destruct (gtb _ c_0_05); [right; left; reflexivity |].
    destruct (ltb _ c_0_04); simpl; auto.
Qed.

Lemma advice_is_one_of_four_witness :
  In (get_trading_advice (Sample.sentiment_frame [decimal 1 100])
                         (Sample.stock_frame [150; 145]))
     [ Ok ("NO ADVICE", "gray"); Ok ("BUYING ADVISED", "green");
       Ok ("SELLING ADVISED", "red"); Ok ("HOLD POSITION", "orange") ].
Proof.
  apply (advice_is_one_of_four (Sample.sentiment_frame [decimal 1 100])
                               (Sample.stock_frame [150; 145])).
  - simpl. auto.
  - simpl. auto.
Defined.

(** X9. [get_trading_advice] raises nothing but KeyError, and only past
    the guard, when the sentiment frame has no [sentiment] column or the
    price frame has no [Close] column. *)
Theorem advice_raises_only_for_a_missing_column
    (sentiment_df : DataFrame SentimentRow) (stock_df : DataFrame PriceBar)
    (e : exn) :
  get_trading_advice sentiment_df stock_df = Raise e ->
  e = KeyError /\
  empty sentiment_df = false /\ empty stock_df = false /\ 2 <= len stock_df /\
  (~ In "sentiment" (columns sentiment_df) \/ ~ In "Close" (columns stock_df)).
Proof.
  intros Hraise.
  destruct (empty sentiment_df || empty stock_df || (len stock_df <? 2))
    eqn:Hguard.
  - unfold get_trading_advice in Hraise. rewrite Hguard in Hraise. discriminate.
  - destruct (guard_passed_inv _ _ Hguard) as [Hs [Hp Hlen]].
    destruct (in_dec string_dec "Close" (columns stock_df)) as [Hc | Hc].
    + rewrite (get_trading_advice_past_guard _ _ Hs Hp Hlen Hc) in Hraise.
      unfold getitem in Hraise.
      destruct (in_dec string_dec "sentiment" (columns sentiment_df))
        as [Hin | Hin]; [discriminate |].
      inversion Hraise. auto 6.
    + unfold get_trading_advice, getitem in Hraise. rewrite Hguard in Hraise.
      destruct (in_dec string_dec "sentiment" (columns sentiment_df));
        [| inversion Hraise; auto 6].
      destruct (in_dec string_dec "Close" (columns stock_df));
        [contradiction |].
      inversion Hraise. auto 6.
Qed.

Lemma advice_raises_only_for_a_missing_column_witness :
  KeyError = KeyError /\
  empty (mkDataFrame ["date"; "headline"]
           [mkSentimentRow Sample.noon "headline" zero]) = false /\
  empty (Sample.stock_frame [150; 145]) = false /\
  2 <= len (Sample.stock_frame [150; 145]) /\
  (~ In "sentiment"
        (columns (mkDataFrame ["date"; "headline"]
                    [mkSentimentRow Sample.noon "headline" zero])) \/
   ~ In "Close" (columns (Sample.stock_frame [150; 145]))).
Proof.
  apply (advice_raises_only_for_a_missing_column
           (mkDataFrame ["date"; "headline"]
              [mkSentimentRow Sample.noon "headline" zero])
           (Sample.stock_frame [150; 145]) KeyError).
  reflexivity.
Defined.

Lemma mean_of_missing_scores (scores : list float) :
  Forall (fun x => is_nan x = true) scores -> Series_mean scores = nan.
Proof.
  intros H. unfold Series_mean, Series_count.
  replace (filter (fun x => negb (is_nan x)) scores) with (@nil float);
    [reflexivity |].
  induction H as [| x l Hx _ IH]; [reflexivity |].
  cbn [filter]. rewrite Hx. exact IH.
Qed.

(** X10. A sentiment frame whose scores are all missing (NaN) has no mean,
    passes neither threshold test and is advised "HOLD POSITION" (orange),
    not "NO ADVICE": the guard looks at the number of rows only. *)
Theorem missing_scores_are_advised_hold
    (sentiment_df : DataFrame SentimentRow) (stock_df : DataFrame PriceBar) :
  empty sentiment_df = false -> empty stock_df = false -> 2 <= len stock_df ->
  In "sentiment" (columns sentiment_df) -> In "Close" (columns stock_df) ->
  Forall (fun r => is_nan (sentiment r) = true) (rows sentiment_df) ->
  get_trading_advice sentiment_df stock_df = Ok ("HOLD POSITION", "orange").
Proof.
  intros Hs Hp Hlen Hsent Hclose Hnan.
  rewrite (advice_with_columns _ _ Hs Hp Hlen Hsent Hclose).
  rewrite mean_of_missing_scores; [reflexivity |].
  apply Forall_map. exact Hnan.
Qed.

Lemma missing_scores_are_advised_hold_witness :
  get_trading_advice (Sample.sentiment_frame [nan; nan])
                     (Sample.stock_frame [150; 145])
  = Ok ("HOLD POSITION", "orange").
Proof.
  apply (missing_scores_are_advised_hold (Sample.sentiment_frame [nan; nan])
                                         (Sample.stock_frame [150; 145])).
  - reflexivity.
  - reflexivity.
  - unfold len. simpl. lia.
  - simpl. auto.
  - simpl. auto.
  - repeat constructor.
Defined.

(** ** From the headlines to the advice *)

Lemma analyze_sentiment_rows (headlines : list Headline) :
  rows (analyze_sentiment headlines) = map row_of headlines.
Proof.
  destruct headlines as [| h headlines]; [reflexivity |].
  unfold analyze_sentiment. cbn [rows].
  rewrite fold_left_append_rows. reflexivity.
Qed.

Lemma analyze_sentiment_columns (headlines : list Headline) :
  columns (analyze_sentiment headlines) = ["date"; "headline"; "sentiment"].
Proof. destruct headlines; reflexivity. Qed.

Lemma analyze_sentiment_empty (headlines : list Headline) :
  empty (analyze_sentiment headlines) =
  match headlines with [] => true | _ :: _ => false end.
Proof.
  unfold empty. rewrite analyze_sentiment_columns, analyze_sentiment_rows.
  destruct headlines; reflexivity.
Qed.




(** ** The chart, further *)

Lemma getitem_length {R A} (df : DataFrame R) (label : string)
    (proj : R -> A) (col : list A) :
  getitem df label proj = Ok col -> List.length col = List.length (rows df).
Proof.
  unfold getitem. destruct (in_dec string_dec label (columns df));
    [| discriminate].
  intros H. inversion H. apply length_map.
Qed.

(** X12. Every figure [create_visualization] returns has the layout of
    the source (height 800, legend shown, no range slider, the two titles
    built from the company name) and one or two traces: first the
    candlestick in row 1, whose five series have one entry per price bar,
    then at most the daily-sentiment line in row 2, whose two series have
    the same length. *)
Theorem figure_shape
    (stock_data : DataFrame PriceBar) (sentiment_data : DataFrame SentimentRow)
    (company_name : string) (fig : Figure) :
  create_visualization stock_data sentiment_data company_name = Ok (Some fig) ->
  height fig = Some 800 /\ showlegend fig = Some true /\
  xaxis_rangeslider_visible fig = Some false /\
  title_text fig
  = Some (String.append company_name " Market Analysis Dashboard") /\
  subplot_titles fig
  = (String.append company_name " Stock Price", "Sentiment Analysis") /\
  exists x o h l c,
    (data fig = [(Candlestick x o h l c "Stock Price", (1, 1))] \/
     exists dx dy,
       data fig = [(Candlestick x o h l c "Stock Price", (1, 1));
                   (Scatter dx dy "lines+markers" "Daily Sentiment" 8, (2, 1))] /\
       List.length dx = List.length dy) /\
    List.length x = List.length (rows stock_data) /\
    List.length o = List.length (rows stock_data) /\
    List.length h = List.length (rows stock_data) /\
    List.length l = List.length (rows stock_data) /\
    List.length c = List.length (rows stock_data) /\
    rows stock_data <> [].
Proof.
  unfold create_visualization.
  destruct (empty stock_data) eqn:Hp; [discriminate |].
  destruct (getitem stock_data "Open" Open) as [o |] eqn:Ho; [| discriminate].
  destruct (getitem stock_data "High" High) as [h |] eqn:Hh; [| discriminate].
  destruct (getitem stock_data "Low" Low) as [l |] eqn:Hl; [| discriminate].
  destruct (getitem stock_data "Close" Close) as [c |] eqn:Hc; [| discriminate].
  cbn [rbind].
  assert (Hlens :
    List.length (index stock_data) = List.length (rows stock_data) /\
    List.length o = List.length (rows stock_data) /\
    List.length h = List.length (rows stock_data) /\
    List.length l = List.length (rows stock_data) /\
    List.length c = List.length (rows stock_data) /\
    rows stock_data <> []).
  { repeat split; try (eapply getitem_length; eassumption).
    - apply length_map.
    - apply empty_false_rows. exact Hp. }
  destruct (negb (empty sentiment_data)).
  - destruct (daily_sentiment_of sentiment_data) as [daily |];
      [| discriminate].
    cbn [rbind]. intros H. inversion H. cbn.
    repeat split. exists (index stock_data), o, h, l, c.
    split; [| exact Hlens].
    right. exists (map fst daily), (map snd daily).
    split; [reflexivity |]. rewrite !length_map. reflexivity.
  - cbn [rbind]. intros H. inversion H. cbn.
    repeat split. exists (index stock_data), o, h, l, c.
    split; [left; reflexivity | exact Hlens].
Qed.

Lemma figure_shape_witness :
  exists fig,
    create_visualization (Sample.stock_frame [150; 145])
      (mkDataFrame sentiment_columns
         (Sample.three_records Sample.noon Sample.noon Sample.noon))
      "Apple Inc" = Ok (Some fig) /\
    height fig = Some 800 /\
    List.length (data fig) = 2%nat.
Proof.
  eexists. split; [vm_compute; reflexivity |].
  split.
  - apply (figure_shape (Sample.stock_frame [150; 145])
             (mkDataFrame sentiment_columns
                (Sample.three_records Sample.noon Sample.noon Sample.noon))
             "Apple Inc").
    vm_compute. reflexivity.
  - reflexivity.
Defined.

Lemma group_insert_total (k : pydate) (v : float)
    (groups : list (pydate * list float)) :
  group_total (group_insert k v groups) = S (group_total groups).
Proof.
  unfold group_total.
  induction groups as [| [k1 vs] rest IH]; [reflexivity |].
  cbn [group_insert]. destruct (date_compare k k1); cbn [map snd List.concat].
  - rewrite !length_app. cbn [List.length]. lia.
  - reflexivity.
  - rewrite !length_app, IH. lia.
Qed.

Lemma groupby_total (kvs : list (pydate * float)) :
  forall groups,
    group_total
      (fold_left (fun gs kv => group_insert (fst kv) (snd kv) gs) kvs groups)
    = (group_total groups + List.length kvs)%nat.
Proof.
  induction kvs as [| kv kvs IH]; intros groups; cbn [fold_left List.length].
  - lia.
  - rewrite IH, group_insert_total. lia.
Qed.

Lemma nonempty_groups_count (groups : list (pydate * list float)) :
  Forall (fun g => snd g <> []) groups ->
  (List.length groups <= group_total groups)%nat.
Proof.
  unfold group_total.
  induction 1 as [| [k vs] rest Hne _ IH]; [apply Nat.le_refl |].
  cbn [map snd List.concat List.length]. rewrite length_app.
  destruct vs as [| v vs]; [contradiction Hne; reflexivity |].
  cbn [List.length]. lia.
Qed.

Lemma sorted_dates_nodup (l : list pydate) :
  StronglySorted date_lt l -> NoDup l.
Proof.
  induction 1 as [| d l _ IH Hall]; constructor; [| exact IH].
  intros Hin. rewrite Forall_forall in Hall. specialize (Hall d Hin).
  unfold date_lt in Hall. rewrite date_compare_refl in Hall. discriminate.
Qed.

(** X13. The daily sentiment series has one point per distinct calendar
    day of the records: no date occurs twice, there are at most as many
    points as records, and at least one as soon as there is a record. *)
Theorem daily_series_has_one_point_per_day
    (sentiment_data : DataFrame SentimentRow) (daily : list (pydate * float)) :
  daily_sentiment_of sentiment_data = Ok daily ->
  NoDup (map fst daily) /\
  (List.length daily <= List.length (rows sentiment_data))%nat /\
  (rows sentiment_data <> [] -> daily <> []).
Proof.
  unfold daily_sentiment_of, getitem.
  destruct (in_dec string_dec "date" (columns sentiment_data));
    [| discriminate].
  destruct (in_dec string_dec "sentiment" (columns sentiment_data));
    [| discriminate].
  cbn [rbind]. intros H. inversion H as [Hd]. clear H.
  destruct (groupby_rows (rows sentiment_data)) as [Hs [Hne Hv]].
  set (groups := groupby (map date_of (map date (rows sentiment_data)))
                         (map sentiment (rows sentiment_data))) in *.
  split; [| split].
  - rewrite groupby_mean_keys. fold groups.
    apply sorted_dates_nodup. exact Hs.
  - unfold groupby_mean. fold groups. rewrite length_map.
    eapply Nat.le_trans; [apply nonempty_groups_count; exact Hne |].
    unfold groups, groupby. rewrite groupby_total.
    unfold group_total. cbn [map List.concat List.length].
    rewrite length_combine, !length_map. lia.
  - intros Hrows Hnil.
    destruct (rows sentiment_data) as [| r rs] eqn:Hr; [congruence |].
    assert (Hin : In (date_of (date r)) (map fst groups)).
    { apply values_of_key_nonempty_key. rewrite Hv.
      apply scores_of_day_nonempty. exists r. split; [left |]; reflexivity. }
    unfold groupby_mean in Hnil. fold groups in Hnil.
    destruct groups; [contradiction | discriminate].
Qed.

Lemma daily_series_has_one_point_per_day_witness :
  NoDup (map fst [(mkDate 2024 3 4, SFopp (decimal 1 10));
                  (mkDate 2024 3 5, decimal 6 10)]) /\
  (List.length [(mkDate 2024 3 4, SFopp (decimal 1 10));
                (mkDate 2024 3 5, decimal 6 10)]
   <= List.length
        (rows (mkDataFrame sentiment_columns
                 (Sample.three_records (mkDatetime 2024 3 4 9 0 0)
                    (mkDatetime 2024 3 4 17 30 0)
                    (mkDatetime 2024 3 5 8 15 0)))))%nat /\
  (rows (mkDataFrame sentiment_columns
           (Sample.three_records (mkDatetime 2024 3 4 9 0 0)
              (mkDatetime 2024 3 4 17 30 0) (mkDatetime 2024 3 5 8 15 0)))
   <> [] ->
   [(mkDate 2024 3 4, SFopp (decimal 1 10)); (mkDate 2024 3 5, decimal 6 10)]
   <> []).
Proof.
  apply (daily_series_has_one_point_per_day
           (mkDataFrame sentiment_columns
              (Sample.three_records (mkDatetime 2024 3 4 9 0 0)
                 (mkDatetime 2024 3 4 17 30 0) (mkDatetime 2024 3 5 8 15 0)))).
  vm_compute. reflexivity.
Defined.

(** ** The price fetcher *)

Section StockFetcherFacts.

Variable minus_days : datetime -> Z -> option datetime.
Variable history : string -> datetime -> datetime -> result (DataFrame PriceBar).

Let get := get_stock_data minus_days history.

Lemma set_date_column_facts (df : DataFrame PriceBar) :
  rows (set_date_column df) = rows df /\
  In "Date" (columns (set_date_column df)) /\
  incl (columns df) (columns (set_date_column df)) /\
  (empty df = false -> empty (set_date_column df) = false).
Proof.
  unfold set_date_column, empty. cbn [rows columns].
  destruct (in_dec string_dec "Date" (columns df)) as [Hin | Hin].
  - repeat split; [exact Hin | apply incl_refl | auto].
  - repeat split.
    + apply in_or_app. right. left. reflexivity.
    + apply incl_appl, incl_refl.
    + destruct (columns df); [discriminate | auto].
Qed.

(** X14. [get_stock_data] never raises, whatever the day count and
    whatever the market-data service does (here the window is computed
    inside the [try]); the frame it returns is [pd.DataFrame()] or a
    non-empty frame with a [Date] column. *)
Theorem get_stock_data_never_raises
    (ticker : string) (days : Z) (now : datetime) (tr : list event) :
  exists df tr',
    get ticker days now tr = (Ok df, tr') /\
    (df = empty_frame \/ (empty df = false /\ In "Date" (columns df))).
Proof.
  unfold get, get_stock_data, try_except, io_bind, io_lift, emit, io_ret.
  destruct (minus_days now days) as [start |]; [| eauto 6].
  destruct (history ticker start now) as [df | e]; [| eauto 6].
  destruct (empty df) eqn:He; cbn [negb]; [eauto 6 |].
  destruct (set_date_column_facts df) as [_ [Hin [_ Hemp]]].
  eexists. eexists. split; [reflexivity |].
  right. split; [apply Hemp; exact He | exact Hin].
Qed.

(** X15. When the service answers a non-empty frame, [get_stock_data]
    returns its rows unchanged, keeps its columns and adds the [Date]
    column, and logs nothing. *)
Theorem get_stock_data_keeps_the_bars
    (ticker : string) (days : Z) (now start : datetime)
    (df0 : DataFrame PriceBar) (tr : list event) :
  minus_days now days = Some start ->
  history ticker start now = Ok df0 ->
  empty df0 = false ->
  exists df,
    get ticker days now tr = (Ok df, tr) /\
    rows df = rows df0 /\ len df = len df0 /\
    In "Date" (columns df) /\ incl (columns df0) (columns df) /\
    empty df = false.
Proof.
  intros Hwin Hhist Hne.
  unfold get, get_stock_data, try_except, io_bind, io_lift, io_ret.
  rewrite Hwin, Hhist, Hne. cbn [negb].
  destruct (set_date_column_facts df0) as [Hrows [Hin [Hincl Hemp]]].
  exists (set_date_column df0).
  split; [reflexivity |]. split; [exact Hrows |].
  split; [unfold len; rewrite Hrows; reflexivity |].
  split; [exact Hin |]. split; [exact Hincl | apply Hemp; exact Hne].
Qed.

(** X16. A failed price fetch degrades instead of failing: when the
    window overflows, the service raises, or the service answers an empty
    frame, [get_stock_data] returns [pd.DataFrame()], on which the advice
    is "NO ADVICE" for any sentiment frame, no chart is built and no
    performance metric is shown. *)
Theorem failed_price_fetch_degrades
    (ticker : string) (days : Z) (now : datetime) (tr : list event) :
  (minus_days now days = None \/
   (exists start e, minus_days now days = Some start /\
                    history ticker start now = Raise e) \/
   (exists start df0, minus_days now days = Some start /\
                      history ticker start now = Ok df0 /\ empty df0 = true)) ->
  exists df tr',
    get ticker days now tr = (Ok df, tr') /\
    df = empty_frame /\
    (forall sentiment_df company_name,
        get_trading_advice sentiment_df df = Ok ("NO ADVICE", "gray") /\
        create_visualization df sentiment_df company_name = Ok None /\
        stock_performance_metric df = Ok None).
Proof.
  intros Hfail.
  assert (Hdown : forall sentiment_df company_name,
    get_trading_advice sentiment_df (@empty_frame PriceBar)
      = Ok ("NO ADVICE", "gray") /\
    create_visualization empty_frame sentiment_df company_name = Ok None /\
    stock_performance_metric (@empty_frame PriceBar) = Ok None).
  { intros sentiment_df company_name. repeat split.
    unfold get_trading_advice. destruct (empty sentiment_df); reflexivity. }
  unfold get, get_stock_data, try_except, io_bind, io_lift, emit, io_ret.
  destruct Hfail as [Hwin | [[start [e [Hwin Hh]]] | [start [df0 [Hwin [Hh He]]]]]];
    rewrite Hwin; try rewrite Hh; try rewrite He; cbn [negb];
    eexists; eexists; (split; [reflexivity | split; [reflexivity | exact Hdown]]).
Qed.

End StockFetcherFacts.

Lemma get_stock_data_keeps_the_bars_witness :
  exists df,
    get_stock_data Sample.minus_days
      (Scenario.market (Ok (Scenario.raw_frame [150; 145])))
      "AAPL" 2 Sample.noon [] = (Ok df, []) /\
    rows df = rows (Scenario.raw_frame [150; 145]) /\
    len df = len (Scenario.raw_frame [150; 145]) /\
    In "Date" (columns df) /\
    incl (columns (Scenario.raw_frame [150; 145])) (columns df) /\
    empty df = false.
Proof.
  apply (get_stock_data_keeps_the_bars Sample.minus_days
           (Scenario.market (Ok (Scenario.raw_frame [150; 145])))
           "AAPL" 2 Sample.noon Scenario.window_start
           (Scenario.raw_frame [150; 145]) []).
  - vm_compute. reflexivity.
  - reflexivity.
  - reflexivity.
Defined.

Lemma failed_price_fetch_degrades_witness :
  exists df tr',
    get_stock_data Sample.minus_days (Scenario.market (Raise RequestException))
      "AAPL" 2 Sample.noon [] = (Ok df, tr') /\
    df = empty_frame /\
    (forall sentiment_df company_name,
        get_trading_advice sentiment_df df = Ok ("NO ADVICE", "gray") /\
        create_visualization df sentiment_df company_name = Ok None /\
        stock_performance_metric df = Ok None).
Proof.
  apply (failed_price_fetch_degrades Sample.minus_days
           (Scenario.market (Raise RequestException))
           "AAPL" 2 Sample.noon []).
  right. left. exists Scenario.window_start, RequestException.
  split; [vm_compute; reflexivity | reflexivity].
Defined.

(** ** The registry and the selectors *)

Lemma ascii_compare_refl (a : ascii) : Ascii.compare a a = Eq.
Proof. unfold Ascii.compare. apply N.compare_refl. Qed.

Lemma ascii_compare_lt_trans (a b c : ascii) :
  Ascii.compare a b = Lt -> Ascii.compare b c = Lt -> Ascii.compare a c = Lt.
Proof.
  unfold Ascii.compare. rewrite !N.compare_lt_iff. apply N.lt_trans.
Qed.

Lemma string_compare_refl (s : string) : String.compare s s = Eq.
Proof.
  induction s as [| a s IH]; [reflexivity |].
  cbn [String.compare]. rewrite ascii_compare_refl. exact IH.
Qed.

Lemma string_lt_trans (a b c : string) :
  string_lt a b -> string_lt b c -> string_lt a c.
Proof.
  unfold string_lt. revert b c.
  induction a as [| x a IH]; intros [| y b] [| z c]; cbn [String.compare];
    try discriminate; try reflexivity.
  destruct (Ascii.compare x y) eqn:Hxy; try discriminate;
    destruct (Ascii.compare y z) eqn:Hyz; try discriminate.
  - apply Ascii.compare_eq_iff in Hxy. apply Ascii.compare_eq_iff in Hyz.
    subst. rewrite ascii_compare_refl. apply IH.
  - apply Ascii.compare_eq_iff in Hxy. subst. rewrite Hyz. reflexivity.
  - apply Ascii.compare_eq_iff in Hyz. subst. rewrite Hxy. reflexivity.
  - rewrite (ascii_compare_lt_trans x y z Hxy Hyz). reflexivity.
Qed.

Lemma insert_unique_in (s : string) (l : list string) (x : string) :
  In x (insert_unique s l) <-> x = s \/ In x l.
Proof.
  induction l as [| y l IH]; cbn [insert_unique].
  - simpl. intuition.
  - destruct (String.compare s y) eqn:Hc; cbn [In].
    + apply String.compare_eq_iff in Hc. subst y. intuition.
    + intuition.
    + rewrite IH. intuition.
Qed.

Lemma insert_unique_sorted (s : string) (l : list string) :
  StronglySorted string_lt l -> StronglySorted string_lt (insert_unique s l).
Proof.
  induction l as [| y l IH]; intros Hs; cbn [insert_unique].
  - constructor; constructor.
  - inversion Hs as [| ? ? Hrest Hall]; subst.
    destruct (String.compare s y) eqn:Hc.
    + exact Hs.
    + constructor; [exact Hs |].
      constructor; [exact Hc |].
      eapply Forall_impl; [| exact Hall].
      intros a Ha. eapply string_lt_trans; [exact Hc | exact Ha].
    + constructor; [apply IH; exact Hrest |].
      apply Forall_forall. intros x Hin.
      apply insert_unique_in in Hin. destruct Hin as [-> | Hin].
      * unfold string_lt. rewrite String.compare_antisym, Hc. reflexivity.
      * rewrite Forall_forall in Hall. apply Hall. exact Hin.
Qed.

Lemma sorted_set_in (l : list string) (x : string) :
  In x (sorted_set l) <-> In x l.
Proof.
  induction l as [| y l IH]; [reflexivity |].
  cbn [sorted_set fold_right]. fold (sorted_set l).
  rewrite insert_unique_in, IH. simpl. intuition.
Qed.

Lemma sorted_set_sorted (l : list string) :
  StronglySorted string_lt (sorted_set l).
Proof.
  induction l as [| y l IH]; [constructor |].
  cbn [sorted_set fold_right]. apply insert_unique_sorted. exact IH.
Qed.

Lemma sectors_in (registry : list (string * Company)) (s : string) :
  In s (sectors registry) <-> exists k c, In (k, c) registry /\ sector c = s.
Proof.
  unfold sectors. rewrite sorted_set_in, in_map_iff. split.
  - intros [[k c] [Hs Hin]]. exists k, c. split; assumption.
  - intros [k [c [Hin Hs]]]. exists (k, c). split; assumption.
Qed.

(** X17. The sector list of the selector is the set of the sectors of the
    registry in strictly ascending order: every sector of a company is
    listed, nothing else is, and nothing is listed twice. *)
Theorem sectors_are_sorted_and_complete (registry : list (string * Company)) :
  StronglySorted string_lt (sectors registry) /\
  NoDup (sectors registry) /\
  (forall s, In s (sectors registry) <->
             exists k c, In (k, c) registry /\ sector c = s).
Proof.
  split; [apply sorted_set_sorted | split].
  - pose proof (sorted_set_sorted
                  (map (fun kv => sector (snd kv)) registry)) as Hs.
    unfold sectors. induction Hs as [| s l _ IH Hall]; constructor; [| exact IH].
    intros Hin. rewrite Forall_forall in Hall. specialize (Hall s Hin).
    unfold string_lt in Hall. rewrite string_compare_refl in Hall.
    discriminate.
  - apply sectors_in.
Qed.

Lemma filtered_in (registry : list (string * Company)) (sel k : string)
    (c : Company) :
  In (k, c) (filtered_companies registry sel) <->
  In (k, c) registry /\ (sel = "All" \/ sector c = sel).
Proof.
  unfold filtered_companies. rewrite filter_In. cbn [snd].
  rewrite orb_true_iff, !String.eqb_eq. reflexivity.
Qed.

(** X18. The company selector offers exactly the companies of the chosen
    sector, in registry order: all of them for "All", and for a listed
    sector a non-empty choice of companies of that sector only. *)
Theorem company_options_match_the_sector
    (registry : list (string * Company)) (selected_sector : string) :
  (selected_sector = "All" ->
   filtered_companies registry selected_sector = registry) /\
  (selected_sector <> "All" ->
   forall k c, In (k, c) (filtered_companies registry selected_sector) <->
               In (k, c) registry /\ sector c = selected_sector) /\
  (In selected_sector (sectors registry) ->
   ticker_options registry selected_sector <> []).
Proof.
  split; [| split].
  - intros ->. unfold filtered_companies.
    induction registry as [| kv registry IH]; [reflexivity |].
    cbn [filter]. change (String.eqb "All" "All") with true. cbn [orb].
    f_equal. exact IH.
  - intros Hnot k c. rewrite filtered_in. intuition.
  - intros Hin Hnil.
    apply sectors_in in Hin.
    destruct Hin as [k [c [Hin Hs]]].
    assert (Hf : In (k, c) (filtered_companies registry selected_sector))
      by (apply filtered_in; auto).
    apply (in_map fst) in Hf. unfold ticker_options in Hnil.
    rewrite Hnil in Hf. contradiction.
Qed.

Lemma company_options_match_the_sector_witness :
  (forall k c, In (k, c) (filtered_companies companies "Energy") <->
               In (k, c) companies /\ sector c = "Energy") /\
  ticker_options companies "Energy" <> [].
Proof.
  split.
  - apply (proj1 (proj2 (company_options_match_the_sector companies "Energy"))).
    discriminate.
  - apply (proj2 (proj2 (company_options_match_the_sector companies "Energy"))).
    vm_compute. auto 10.
Defined.

Lemma lookup_of_member {V : Type} (d : list (string * V)) (k : string) (v : V) :
  NoDup (map fst d) -> In (k, v) d -> lookup d k = Some v.
Proof.
  induction d as [| [k' v'] d IH]; intros Hnd Hin; [contradiction |].
  cbn [map fst] in Hnd. inversion Hnd as [| ? ? Hnotin Hnd']; subst.
  cbn [lookup]. destruct Hin as [Heq | Hin].
  - inversion Heq; subst. rewrite String.eqb_refl. reflexivity.
  - destruct (String.eqb_spec k k') as [-> | _].
    + exfalso. apply Hnotin. apply (in_map fst) in Hin. exact Hin.
    + apply IH; assumption.
Qed.

Lemma nodup_keys_filter {V : Type} (p : string * V -> bool)
    (d : list (string * V)) :
  NoDup (map fst d) -> NoDup (map fst (filter p d)).
Proof.
  induction d as [| kv d IH]; intros Hnd; [constructor |].
  cbn [map] in Hnd. inversion Hnd as [| ? ? Hnotin Hnd']; subst.
  cbn [filter]. destruct (p kv); [| apply IH; exact Hnd'].
  cbn [map]. constructor; [| apply IH; exact Hnd'].
  intros Hin. apply Hnotin. apply in_map_iff in Hin.
  destruct Hin as [x [Hx Hin]]. apply filter_In in Hin.
  rewrite <- Hx. apply in_map. apply Hin.
Qed.

(** The registry of the source is keyed by ticker, every key once. *)
Lemma companies_keys :
  NoDup (map fst companies) /\
  Forall (fun kv => ticker (snd kv) = fst kv) companies.
Proof.
  split.
  - assert (H : forallb (fun k => Nat.eqb (count_occ string_dec
                                            (map fst companies) k) 1)
                        (map fst companies) = true)
      by (vm_compute; reflexivity).
    apply (NoDup_count_occ' string_dec). intros k Hin.
    rewrite forallb_forall in H. apply Nat.eqb_eq. apply H. exact Hin.
  - repeat constructor.
Qed.

(** X19. Every option the selectors of [main] can offer resolves: for
    each entry of the sector list the company list is not empty, and each
    ticker it offers is a key of the registry whose company carries that
    ticker and is in the chosen sector, so neither [companies[ticker]] nor
    the label function raises KeyError. *)
Theorem offered_options_resolve :
  (forall sel, In sel (sector_options companies) ->
               ticker_options companies sel <> []) /\
  (forall sel t, In t (ticker_options companies sel) ->
     exists c,
       dict_getitem companies t = Ok c /\
       ticker c = t /\
       (sel = "All" \/ sector c = sel) /\
       format_func companies sel t
       = Ok (String.append t (String.append " - " (name c)))).
Proof.
  destruct companies_keys as [Hnd Hkeys]. split.
  - intros sel [<- | Hin].
    + vm_compute. discriminate.
    + intros Hnil. apply sectors_in in Hin. destruct Hin as [k [c [Hin Hs]]].
      assert (Hf : In (k, c) (filtered_companies companies sel))
        by (apply filtered_in; auto).
      apply (in_map fst) in Hf. unfold ticker_options in Hnil.
      rewrite Hnil in Hf. contradiction.
  - intros sel t Hin. unfold ticker_options in Hin.
    apply in_map_iff in Hin. destruct Hin as [[k c] [Hk Hin]].
    cbn [fst] in Hk. subst k. exists c.
    pose proof Hin as Hfil. apply filtered_in in Hin. destruct Hin as [Hin Hsel].
    split; [| split; [| split]].
    + unfold dict_getitem. rewrite (lookup_of_member companies t c Hnd Hin).
      reflexivity.
    + rewrite Forall_forall in Hkeys. apply (Hkeys (t, c) Hin).
    + exact Hsel.
    + unfold format_func, dict_getitem.
      pose proof (lookup_of_member (filtered_companies companies sel) t c
                    (nodup_keys_filter _ _ Hnd) Hfil) as Hl.
      rewrite Hl. reflexivity.
Qed.

Lemma offered_options_resolve_witness :
  ticker_options companies "Healthcare" <> [] /\
  exists c,
    dict_getitem companies "UNH" = Ok c /\
    ticker c = "UNH" /\
    ("Healthcare" = "All" \/ sector c = "Healthcare") /\
    format_func companies "Healthcare" "UNH"
    = Ok (String.append "UNH" (String.append " - " (name c))).
Proof.
  split.
  - apply (proj1 offered_options_resolve "Healthcare").
    vm_compute. auto 12.
  - apply (proj2 offered_options_resolve "Healthcare" "UNH").
    vm_compute. auto.
Defined.

(** ** The headline table *)

Lemma lex_compare_refl (a : list Z) : lex_compare a a = Eq.
Proof.
  induction a as [| x a IH]; [reflexivity |].
  cbn [lex_compare]. rewrite Z.compare_refl. exact IH.
Qed.

Lemma lex_compare_antisym (a b : list Z) :
  lex_compare b a = CompOpp (lex_compare a b).
Proof.
  revert b. induction a as [| x a IH]; intros [| y b]; try reflexivity.
  cbn [lex_compare]. rewrite (Z.compare_antisym x y).
  destruct (x ?= y); cbn [CompOpp]; [apply IH | reflexivity | reflexivity].
Qed.

Lemma lex_compare_eq (a b : list Z) : lex_compare a b = Eq -> a = b.
Proof.
  revert b. induction a as [| x a IH]; intros [| y b]; cbn [lex_compare];
    try discriminate; [reflexivity |].
  destruct (Z.compare_spec x y) as [Hxy | Hxy | Hxy]; try discriminate.
  intros Hrest. subst. f_equal. apply IH. exact Hrest.
Qed.

Lemma lex_compare_lt_trans (a b c : list Z) :
  lex_compare a b = Lt -> lex_compare b c = Lt -> lex_compare a c = Lt.
Proof.
  revert b c.
  induction a as [| x a IH]; intros [| y b] [| z c]; cbn [lex_compare];
    try discriminate; try reflexivity.
  destruct (Z.compare_spec x y); try discriminate;
    destruct (Z.compare_spec y z); try discriminate;
    destruct (Z.compare_spec x z); try lia; try reflexivity.
  apply IH.
Qed.

Lemma datetime_not_before_trans (a b c : datetime) :
  datetime_ltb a b = false -> datetime_ltb b c = false ->
  datetime_ltb a c = false.
Proof.
  unfold datetime_ltb, datetime_compare.
  set (ka := datetime_key a). set (kb := datetime_key b).
  set (kc := datetime_key c).
  intros Hab Hbc.
  destruct (lex_compare ka kc) eqn:Hac; try reflexivity. exfalso.
  destruct (lex_compare ka kb) eqn:H1; try discriminate.
  - apply lex_compare_eq in H1. rewrite <- H1, Hac in Hbc. discriminate.
  - assert (H2 : lex_compare kb ka = Lt)
      by (rewrite (lex_compare_antisym ka kb), H1; reflexivity).
    rewrite (lex_compare_lt_trans kb ka kc H2 Hac) in Hbc. discriminate.
Qed.

Lemma datetime_before_not_after (a b : datetime) :
  datetime_ltb a b = true -> datetime_ltb b a = false.
Proof.
  unfold datetime_ltb, datetime_compare.
  rewrite (lex_compare_antisym (datetime_key a) (datetime_key b)).
  destruct (lex_compare (datetime_key a) (datetime_key b));
    try discriminate. reflexivity.
Qed.

Lemma insert_newest_first_perm (r : SentimentRow) (l : list SentimentRow) :
  Permutation (r :: l) (insert_newest_first r l).
Proof.
  induction l as [| x l IH]; [apply Permutation_refl |].
  cbn [insert_newest_first].
  destruct (datetime_ltb (date r) (date x)); [| apply Permutation_refl].
  eapply Permutation_trans; [apply perm_swap |].
  apply perm_skip. exact IH.
Qed.

Lemma insert_newest_first_sorted (r : SentimentRow) (l : list SentimentRow) :
  newest_first l -> newest_first (insert_newest_first r l).
Proof.
  unfold newest_first.
  induction l as [| x l IH]; intros Hs; cbn [insert_newest_first].
  - constructor; constructor.
  - inversion Hs as [| ? ? Hrest Hall]; subst.
    destruct (datetime_ltb (date r) (date x)) eqn:Hrx.
    + constructor; [apply IH; exact Hrest |].
      apply Forall_forall. intros y Hin.
      apply (Permutation_in _ (Permutation_sym (insert_newest_first_perm r l)))
        in Hin.
      destruct Hin as [<- | Hin].
      * apply datetime_before_not_after. exact Hrx.
      * rewrite Forall_forall in Hall. apply Hall. exact Hin.
    + constructor; [exact Hs |].
      constructor; [exact Hrx |].
      eapply Forall_impl; [| exact Hall].
      intros y Hy. eapply datetime_not_before_trans; eassumption.
Qed.

Lemma sort_values_desc_perm (l : list SentimentRow) :
  Permutation l (sort_values_desc l).
Proof.
  induction l as [| r l IH]; [constructor |].
  cbn [sort_values_desc fold_right]. fold (sort_values_desc l).
  eapply Permutation_trans; [apply perm_skip; exact IH |].
  apply insert_newest_first_perm.
Qed.

Lemma display_table_length (sentiment_df : DataFrame SentimentRow) :
  List.length (display_table sentiment_df) = List.length (rows sentiment_df).
Proof.
  unfold display_table. rewrite length_map.
  symmetry. apply Permutation_length. apply sort_values_desc_perm.
Qed.

(** X20. The headline table shows every record once, newest first: the
    displayed rows are a rearrangement of the rows of the sentiment frame
    in which no row is followed by a more recent one. *)
Theorem headline_table_is_newest_first (sentiment_df : DataFrame SentimentRow) :
  Permutation (rows sentiment_df) (sort_values_desc (rows sentiment_df)) /\
  newest_first (sort_values_desc (rows sentiment_df)) /\
  List.length (display_table sentiment_df) = List.length (rows sentiment_df).
Proof.
  split; [apply sort_values_desc_perm | split].
  - induction (rows sentiment_df) as [| r l IH]; [constructor |].
    cbn [sort_values_desc fold_right]. apply insert_newest_first_sorted.
    exact IH.
  - apply display_table_length.
Qed.

(** ** main *)

Lemma render_analysis_trace
    (company : Company) (headlines : list Headline)
    (sentiment_df : DataFrame SentimentRow) (stock_df : DataFrame PriceBar)
    (tr : list ui_event) (advice color average : string)
    (performance : option string) (fig : option Figure) :
  get_trading_advice sentiment_df stock_df = Ok (advice, color) ->
  average_sentiment_metric sentiment_df = Ok average ->
  stock_performance_metric stock_df = Ok performance ->
  create_visualization stock_df sentiment_df (name company) = Ok fig ->
  render_analysis company headlines sentiment_df stock_df tr =
    (Ok tt,
     tr ++ [ st_markdown (advice_html advice color);
             st_metric "Average Sentiment" (metric_text average);
             st_metric "Headlines Analyzed"
               (metric_int (Z.of_nat (List.length headlines))) ]
        ++ performance_events performance
        ++ [chart_event fig]
        ++ headline_events sentiment_df).
Proof.
  intros Hadv Havg Hperf Hfig.
  unfold render_analysis, ui_bind, ui_lift, ui_emit, ui_ret.
  rewrite Hadv, Havg, Hperf, Hfig.
  unfold performance_events, chart_event, headline_events.
  destruct performance, fig, (negb (empty sentiment_df));
    cbn [app]; rewrite <- ?app_assoc; reflexivity.
Qed.

Lemma render_analysis_ok_inv
    (company : Company) (headlines : list Headline)
    (sentiment_df : DataFrame SentimentRow) (stock_df : DataFrame PriceBar)
    (tr tr' : list ui_event) :
  render_analysis company headlines sentiment_df stock_df tr = (Ok tt, tr') ->
  exists advice color average performance fig,
    get_trading_advice sentiment_df stock_df = Ok (advice, color) /\
    average_sentiment_metric sentiment_df = Ok average /\
    stock_performance_metric stock_df = Ok performance /\
    create_visualization stock_df sentiment_df (name company) = Ok fig.
Proof.
  unfold render_analysis, ui_bind, ui_lift, ui_emit, ui_ret.
  destruct (get_trading_advice sentiment_df stock_df) as [[a c] | e];
    [| discriminate].
  destruct (average_sentiment_metric sentiment_df) as [avg | e];
    [| discriminate].
  destruct (stock_performance_metric stock_df) as [p | e];
    [| discriminate].
  destruct (create_visualization stock_df sentiment_df (name company))
    as [f | e].
  - intros _. exists a, c, avg, p, f. repeat split.
  - destruct p; discriminate.
Qed.

(** X21. The count shown as "Headlines Analyzed" is the number of fetched
    headlines and of rows of the headline table; the table is rendered
    last and only when there are headlines, otherwise the page ends with
    the "no headlines" notice and shows "N/A" and "NO ADVICE". *)
Theorem headline_count_matches_the_table
    (company : Company) (headlines : list Headline)
    (stock_df : DataFrame PriceBar) (tr tr' : list ui_event) :
  render_analysis company headlines (analyze_sentiment headlines) stock_df tr
  = (Ok tt, tr') ->
  exists front,
    tr' = tr ++ front ++ headline_events (analyze_sentiment headlines) /\
    In (st_metric "Headlines Analyzed"
          (metric_int (Z.of_nat (List.length headlines)))) front /\
    (headlines <> [] ->
     headline_events (analyze_sentiment headlines)
     = [st_subheader "Recent Headlines";
        st_dataframe (display_table (analyze_sentiment headlines))] /\
     List.length (display_table (analyze_sentiment headlines))
     = List.length headlines) /\
    (headlines = [] ->
     headline_events (analyze_sentiment headlines)
     = [st_info "No headlines available for the selected period."] /\
     In (st_metric "Average Sentiment" (metric_text "N/A")) front /\
     In (st_markdown (advice_html "NO ADVICE" "gray")) front).
Proof.
  intros Hrun.
  destruct (render_analysis_ok_inv _ _ _ _ _ _ Hrun)
    as [advice [color [average [performance [fig [Ha [Hv [Hp Hf]]]]]]]].
  rewrite (render_analysis_trace company headlines _ stock_df tr advice color
             average performance fig Ha Hv Hp Hf) in Hrun.
  inversion Hrun as [Htr]. clear Hrun.
  exists ([ st_markdown (advice_html advice color);
            st_metric "Average Sentiment" (metric_text average);
            st_metric "Headlines Analyzed"
              (metric_int (Z.of_nat (List.length headlines))) ]
          ++ performance_events performance ++ [chart_event fig]).
  split; [| split; [| split]].
  - rewrite <- !app_assoc. reflexivity.
  - right. right. left. reflexivity.
  - intros Hne. unfold headline_events.
    rewrite analyze_sentiment_empty.
    destruct headlines as [| h hs]; [congruence |]. cbn [negb].
    split; [reflexivity |].
    rewrite display_table_length, analyze_sentiment_rows. apply length_map.
  - intros ->. cbn in Ha, Hv. inversion Ha. inversion Hv.
    split; [reflexivity |]. split; [right; left | left]; reflexivity.
Qed.

Lemma headline_count_matches_the_table_witness :
  exists front,
    snd (render_analysis Sample.apple
           (headlines_of Sample.strptime Sample.polarity Scenario.mixed_batch)
           (analyze_sentiment
              (headlines_of Sample.strptime Sample.polarity
                 Scenario.mixed_batch))
           (Sample.stock_frame [150; 145]) [])
    = [] ++ front
         ++ headline_events
              (analyze_sentiment
                 (headlines_of Sample.strptime Sample.polarity
                    Scenario.mixed_batch)) /\
    In (st_metric "Headlines Analyzed"
          (metric_int
             (Z.of_nat
                (List.length
                   (headlines_of Sample.strptime Sample.polarity
                      Scenario.mixed_batch))))) front.
Proof.
  destruct (headline_count_matches_the_table Sample.apple
              (headlines_of Sample.strptime Sample.polarity Scenario.mixed_batch)
              (Sample.stock_frame [150; 145]) []
              (snd (render_analysis Sample.apple
                      (headlines_of Sample.strptime Sample.polarity
                         Scenario.mixed_batch)
                      (analyze_sentiment
                         (headlines_of Sample.strptime Sample.polarity
                            Scenario.mixed_batch))
                      (Sample.stock_frame [150; 145]) [])))
    as [front [Htr [Hcount _]]].
  - vm_compute. reflexivity.
  - exists front. split; assumption.
Defined.

Section MainFacts.

Variable strptime : string -> option datetime.
Variable polarity : string -> float.
Variable minus_days : datetime -> Z -> option datetime.
Variable strftime_ymd : datetime -> string.
Variable http : request -> result response.
Variable history : string -> datetime -> datetime -> result (DataFrame PriceBar).

Let main' := main strptime polarity minus_days strftime_ymd http history.
Let analysis' :=
  analysis strptime polarity minus_days strftime_ymd http history.

Lemma main_unfold (inp : ui_inputs) (tr : list ui_event) :
  main' inp tr =
    let api_key := resolve_key (configured_key inp) (typed_key inp) in
    if analyze_pressed inp && negb (falsy api_key) then
      match analysis' api_key inp (tr ++ page_header) with
      | (Ok a, tr') => (Ok a, tr')
      | (Raise e, tr') =>
          (Ok tt, tr' ++ [ui_error "Analysis error: " e;
                          backend (logger_error "Analysis error: " e)])
      end
    else (Ok tt, tr ++ page_header).
Proof.
  unfold main', main, ui_bind, ui_emit, ui_ret, ui_try, page_header.
  cbv zeta.
  replace (((tr ++ [set_page_config "Stock Sentiment Analysis" "wide"])
              ++ [st_title "Stock Sentiment Analysis Dashboard"])
             ++ [sidebar_title "Controls"])
    with (tr ++ [set_page_config "Stock Sentiment Analysis" "wide";
                 st_title "Stock Sentiment Analysis Dashboard";
                 sidebar_title "Controls"])
    by (rewrite <- !app_assoc; reflexivity).
  destruct (analyze_pressed inp
            && negb (falsy (resolve_key (configured_key inp) (typed_key inp))));
    [| reflexivity].
  fold analysis'.
  destruct (analysis' (resolve_key (configured_key inp) (typed_key inp)) inp
              (tr ++ [set_page_config "Stock Sentiment Analysis" "wide";
                      st_title "Stock Sentiment Analysis Dashboard";
                      sidebar_title "Controls"])) as [[a | e] tr'];
    [reflexivity |].
  rewrite <- app_assoc. reflexivity.
Qed.


(** X23. A configured key wins over the sidebar: when the secrets or the
    environment give a key, whatever is typed in the key field changes
    nothing of what [main] does. *)
Theorem configured_key_wins
    (inp : ui_inputs) (typed : string) (tr : list ui_event) :
  falsy (configured_key inp) = false ->
  main' inp tr =
  main' (mkInputs (configured_key inp) typed (selected_sector inp)
           (selected_ticker inp) (analyze_pressed inp) (now_news inp)
           (now_prices inp)) tr.
Proof.
  intros Hkey. rewrite !main_unfold. cbv zeta.
  cbn [configured_key typed_key analyze_pressed].
  unfold resolve_key. rewrite Hkey. reflexivity.
Qed.


(** X25. A ticker that is not in the registry (or no selection at all)
    ends the analysis at once: the KeyError is shown and logged, and no
    news request and no price request is made. *)
Theorem unknown_ticker_is_reported (inp : ui_inputs) (tr : list ui_event) :
  analyze_pressed inp = true ->
  falsy (resolve_key (configured_key inp) (typed_key inp)) = false ->
  match selected_ticker inp with
  | Some t => lookup companies t = None
  | None => True
  end ->
  main' inp tr =
    (Ok tt,
     tr ++ page_header
        ++ [st_spinner "Analyzing market data...";
            ui_error "Analysis error: " KeyError;
            backend (logger_error "Analysis error: " KeyError)]).
Proof.
  intros Hpressed Hkey Hticker. rewrite main_unfold. cbv zeta.
  rewrite Hpressed, Hkey. cbn [andb negb].
  unfold analysis', analysis, ui_bind, ui_emit, ui_lift.
  assert (Hraise : match selected_ticker inp with
                   | Some t => dict_getitem companies t
                   | None => Raise KeyError
                   end = Raise KeyError).
  { destruct (selected_ticker inp) as [t |]; [| reflexivity].
    unfold dict_getitem. rewrite Hticker. reflexivity. }
  rewrite Hraise. rewrite <- !app_assoc. reflexivity.
Qed.

Lemma performance_metric_total (stock_df : DataFrame PriceBar) :
  In "Close" (columns stock_df) ->
  exists performance, stock_performance_metric stock_df = Ok performance.
Proof.
  intros Hclose. unfold stock_performance_metric.
  destruct (empty stock_df) eqn:Hp; cbn [negb andb]; [eauto |].
  destruct (1 <? len stock_df); [| eauto].
  rewrite (getitem_ok stock_df "Close" Close Hclose).
  pose proof (empty_false_rows stock_df Hp) as Hrows.
  destruct (rows stock_df) as [| b bs]; [congruence |].
  cbn [rbind map]. rewrite iloc_last_ok, iloc_first_ok. cbn [rbind]. eauto.
Qed.

Lemma chart_of_prices_only
    (stock_data : DataFrame PriceBar) (sentiment_data : DataFrame SentimentRow)
    (company_name : string) :
  empty stock_data = false ->
  In "Open" (columns stock_data) -> In "High" (columns stock_data) ->
  In "Low" (columns stock_data) -> In "Close" (columns stock_data) ->
  empty sentiment_data = true ->
  create_visualization stock_data sentiment_data company_name =
    Ok (Some (mkFigure
                (String.append company_name " Stock Price", "Sentiment Analysis")
                [(Candlestick (index stock_data)
                    (map Open (rows stock_data)) (map High (rows stock_data))
                    (map Low (rows stock_data)) (map Close (rows stock_data))
                    "Stock Price", (1, 1))]
                (Some 800)
                (Some (String.append company_name " Market Analysis Dashboard"))
                (Some true) (Some false))).
Proof.
  intros Hp Ho Hh Hl Hc Hs.
  unfold create_visualization. rewrite Hp, Hs.
  rewrite (getitem_ok stock_data "Open" Open Ho).
  rewrite (getitem_ok stock_data "High" High Hh).
  rewrite (getitem_ok stock_data "Low" Low Hl).
  rewrite (getitem_ok stock_data "Close" Close Hc).
  reflexivity.
Qed.

(** X26. A news outage leaves the prices on the page: when the news
    request raises and the price service answers a non-empty frame with
    its OHLC columns, [main] logs the news error and then renders "NO
    ADVICE", "N/A", a count of 0, the performance if there are 2 bars or
    more, the chart with the candlestick alone, and the notice that there
    are no headlines; no analysis error is shown. *)
Theorem news_outage_still_shows_prices
    (inp : ui_inputs) (key t : string) (company : Company)
    (start1 start2 : datetime) (e : exn) (df0 : DataFrame PriceBar)
    (tr : list ui_event) :
  analyze_pressed inp = true ->
  resolve_key (configured_key inp) (typed_key inp) = Some key ->
  falsy (Some key) = false ->
  selected_ticker inp = Some t -> lookup companies t = Some company ->
  minus_days (now_news inp) 2 = Some start1 ->
  http (news_request strftime_ymd company start1 (now_news inp) key) = Raise e ->
  minus_days (now_prices inp) 2 = Some start2 ->
  history (ticker company) start2 (now_prices inp) = Ok df0 ->
  empty df0 = false ->
  In "Open" (columns df0) -> In "High" (columns df0) ->
  In "Low" (columns df0) -> In "Close" (columns df0) ->
  exists performance,
    main' inp tr =
      (Ok tt,
       tr ++ page_header
          ++ [ st_spinner "Analyzing market data...";
               backend (requests_get
                          (news_request strftime_ymd company start1
                             (now_news inp) key));
               backend (logger_error "Error fetching news: " e);
               st_markdown (advice_html "NO ADVICE" "gray");
               st_metric "Average Sentiment" (metric_text "N/A");
               st_metric "Headlines Analyzed" (metric_int 0) ]
          ++ performance_events performance
          ++ [ st_plotly_chart
                 (mkFigure
                    (String.append (name company) " Stock Price",
                     "Sentiment Analysis")
                    [(Candlestick (map Date (rows df0))
                        (map Open (rows df0)) (map High (rows df0))
                        (map Low (rows df0)) (map Close (rows df0))
                        "Stock Price", (1, 1))]
                    (Some 800)
                    (Some (String.append (name company)
                             " Market Analysis Dashboard"))
                    (Some true) (Some false));
               st_info "No headlines available for the selected period." ]).
Proof.
  intros Hpressed Hres Hkey Hsel Hlook Hwin1 Hhttp Hwin2 Hhist Hne Ho Hh Hl Hc.
  rewrite main_unfold. cbv zeta. rewrite Hpressed, Hres, Hkey. cbn [andb negb].
  unfold analysis', analysis.
  unfold ui_bind at 1, ui_emit at 1.
  unfold ui_bind at 1, ui_lift at 1.
  rewrite Hsel. unfold dict_getitem. rewrite Hlook.
  unfold ui_bind at 1, run_backend at 1.
  rewrite (fetch_with_key strptime polarity minus_days strftime_ymd http
             key company 2 (now_news inp) start1 [] Hkey Hwin1).
  cbv zeta. unfold try_except, io_bind at 1, io_lift at 1. rewrite Hhttp.
  unfold io_bind, emit, io_ret. cbn [app map].
  unfold ui_bind at 1, run_backend at 1.
  unfold get_stock_data, try_except, io_bind, io_lift, io_ret.
  rewrite Hwin2, Hhist, Hne. cbn [negb map].
  destruct (set_date_column_facts df0) as [Hrows [_ [Hincl Hemp]]].
  destruct (performance_metric_total (set_date_column df0) (Hincl _ Hc))
    as [performance Hperf].
  exists performance.
  rewrite (render_analysis_trace company [] (analyze_sentiment [])
             (set_date_column df0) _ "NO ADVICE" "gray" "N/A" performance
             (Some (mkFigure
                      (String.append (name company) " Stock Price",
                       "Sentiment Analysis")
                      [(Candlestick (index (set_date_column df0))
                          (map Open (rows (set_date_column df0)))
                          (map High (rows (set_date_column df0)))
                          (map Low (rows (set_date_column df0)))
                          (map Close (rows (set_date_column df0)))
                          "Stock Price", (1, 1))]
                      (Some 800)
                      (Some (String.append (name company)
                               " Market Analysis Dashboard"))
                      (Some true) (Some false)))).
  - unfold index. rewrite Hrows. cbn [chart_event headline_events].
    cbn [analyze_sentiment empty columns rows negb List.length Z.of_nat].
    rewrite <- !app_assoc. reflexivity.
  - reflexivity.
  - reflexivity.
  - exact Hperf.
  - apply chart_of_prices_only; auto.
Qed.

End MainFacts.


Lemma configured_key_wins_witness :
  Scenario.run_main (Ok (Sample.ok_response Scenario.mixed_batch))
    (Ok (Scenario.raw_frame [150; 145])) (Scenario.inputs (Some "AAPL") true)
  = Scenario.run_main (Ok (Sample.ok_response Scenario.mixed_batch))
      (Ok (Scenario.raw_frame [150; 145]))
      (mkInputs (Some "k") "another key" "All" (Some "AAPL") true
         Sample.noon Sample.noon).
Proof.
  apply (configured_key_wins
           Sample.strptime Sample.polarity Sample.minus_days
           Sample.strftime_ymd
           (Sample.server (Ok (Sample.ok_response Scenario.mixed_batch)))
           (Scenario.market (Ok (Scenario.raw_frame [150; 145])))
           (Scenario.inputs (Some "AAPL") true) "another key" []).
  reflexivity.
Defined.


Lemma unknown_ticker_is_reported_witness :
  Scenario.run_main (Ok (Sample.ok_response Scenario.mixed_batch))
    (Ok (Scenario.raw_frame [150; 145])) (Scenario.inputs None true)
  = (Ok tt,
     [] ++ page_header
        ++ [st_spinner "Analyzing market data...";
            ui_error "Analysis error: " KeyError;
            backend (logger_error "Analysis error: " KeyError)]).
Proof.
  apply (unknown_ticker_is_reported
           Sample.strptime Sample.polarity Sample.minus_days
           Sample.strftime_ymd
           (Sample.server (Ok (Sample.ok_response Scenario.mixed_batch)))
           (Scenario.market (Ok (Scenario.raw_frame [150; 145])))
           (Scenario.inputs None true) []).
  - reflexivity.
  - reflexivity.
  - exact I.
Defined.

Lemma news_outage_still_shows_prices_witness :
  exists performance,
    Scenario.run_main (Raise RequestException)
      (Ok (Scenario.raw_frame [150; 145])) (Scenario.inputs (Some "AAPL") true)
    = (Ok tt,
       [] ++ page_header
          ++ [ st_spinner "Analyzing market data...";
               backend (requests_get Scenario.request);
               backend (logger_error "Error fetching news: " RequestException);
               st_markdown (advice_html "NO ADVICE" "gray");
               st_metric "Average Sentiment" (metric_text "N/A");
               st_metric "Headlines Analyzed" (metric_int 0) ]
          ++ performance_events performance
          ++ [ st_plotly_chart
                 (mkFigure
                    (String.append (name Sample.apple) " Stock Price",
                     "Sentiment Analysis")
                    [(Candlestick
                        (map Date (rows (Scenario.raw_frame [150; 145])))
                        (map Open (rows (Scenario.raw_frame [150; 145])))
                        (map High (rows (Scenario.raw_frame [150; 145])))
                        (map Low (rows (Scenario.raw_frame [150; 145])))
                        (map Close (rows (Scenario.raw_frame [150; 145])))
                        "Stock Price", (1, 1))]
                    (Some 800)
                    (Some (String.append (name Sample.apple)
                             " Market Analysis Dashboard"))
                    (Some true) (Some false));
               st_info "No headlines available for the selected period." ]).
Proof.
  apply (news_outage_still_shows_prices
           Sample.strptime Sample.polarity Sample.minus_days
           Sample.strftime_ymd (Sample.server (Raise RequestException))
           (Scenario.market (Ok (Scenario.raw_frame [150; 145])))
           (Scenario.inputs (Some "AAPL") true) "k" "AAPL" Sample.apple
           Scenario.window_start Scenario.window_start RequestException
           (Scenario.raw_frame [150; 145]) []).
  - reflexivity.
  - reflexivity.
  - reflexivity.
  - reflexivity.
  - reflexivity.
  - vm_compute. reflexivity.
  - reflexivity.
  - vm_compute. reflexivity.
  - reflexivity.
  - reflexivity.
  - simpl. auto.
  - simpl. auto.
  - simpl. auto.
  - simpl. auto.
Defined.

(** The end-to-end run of the running example: two headlines scoring 0.8
    and -0.4 among three skipped articles, closes 150 and 145. *)
Lemma example_page :
  exists before fig,
    Scenario.run_main (Ok (Sample.ok_response Scenario.mixed_batch))
      (Ok (Scenario.raw_frame [150; 145])) (Scenario.inputs (Some "AAPL") true)
    = (Ok tt,
       before
       ++ [ st_markdown (advice_html "BUYING ADVISED" "green");
            st_metric "Average Sentiment" (metric_text "0.20");
            st_metric "Headlines Analyzed" (metric_int 2);
            st_metric "Stock Performance" (metric_text "-3.3%");
            st_plotly_chart fig;
            st_subheader "Recent Headlines";
            st_dataframe
              [("2024-03-05 09:30", "Shares soar on record profit",
                decimal 8 10);
               ("2024-03-04 18:00", "Lawsuit threatens outlook",
                SFopp (decimal 4 10))] ]).
Proof.
  eexists (_ :: _ :: _ :: _ :: _ :: _ :: _ :: _ :: nil). eexists.
  vm_compute. reflexivity.
Qed.

(** ** What the news fetcher can raise *)

Section FetchRaises.

Variable strptime : string -> option datetime.
Variable polarity : string -> float.
Variable minus_days : datetime -> Z -> option datetime.
Variable strftime_ymd : datetime -> string.
Variable http : request -> result response.

(** X27. The window is the only thing [fetch_news_headlines] can raise
    from: if the call raises, the exception is the OverflowError of
    [now - timedelta(days)], a key was present, and nothing was sent or
    logged; every failure of the request and of its processing is turned
    into a returned list instead. *)
Theorem only_the_window_can_raise
    (api_key : option string) (company : Company) (days : Z) (now : datetime)
    (tr tr' : list event) (e : exn) :
  fetch_news_headlines strptime polarity minus_days strftime_ymd http
    api_key company days now tr = (Raise e, tr') ->
  e = OverflowError /\ falsy api_key = false /\
  minus_days now days = None /\ tr' = tr.
Proof.
  intros Hraise.
  destruct (falsy api_key) eqn:Hkey.
  - unfold fetch_news_headlines in Hraise. rewrite Hkey in Hraise.
    discriminate.
  - destruct api_key as [key |]; [| discriminate].
    destruct (minus_days now days) as [start |] eqn:Hwin.
    + destruct (fetch_never_raises strptime polarity minus_days strftime_ymd
                  http key company days now start tr Hkey Hwin)
        as [hs [t Hok]].
      rewrite Hok in Hraise. discriminate.
    + unfold fetch_news_headlines in Hraise. rewrite Hkey in Hraise.
      unfold io_bind at 1, io_lift at 1 in Hraise. rewrite Hwin in Hraise.
      inversion Hraise. repeat split.
Qed.

End FetchRaises.

Lemma only_the_window_can_raise_witness :
  OverflowError = OverflowError /\ falsy (Some "k") = false /\
  Sample.minus_days Sample.noon 4000000000 = None /\
  @nil event = [].
Proof.
  apply (only_the_window_can_raise
           Sample.strptime Sample.polarity Sample.minus_days
           Sample.strftime_ymd
           (Sample.server (Ok (Sample.ok_response [Sample.good_article])))
           (Some "k") Sample.apple 4000000000 Sample.noon [] [] OverflowError).
  vm_compute. reflexivity.
Defined.
